(** * The POWDER srsLTE over-the-air profile (profile.py)

    A shallow embedding of the profile script: the bound parameter set, the
    frequency checks that report parameter errors to the portal context, the
    two node-pair builders and the loops that assemble the request.

    The script drives two objects of the hosting library by side effect: the
    portal context (which collects the reported parameter errors) and the
    request (which collects nodes, links and spectrum ranges).  Both are
    modelled as explicit stores threaded through a small state monad; the
    Python object references the script keeps in local variables ([node],
    [radio_link], [bs], [node_radio_if]) are handles into the request store,
    so an attribute assigned after a resource was created is seen by every
    holder of the handle, as in the script.

    Frequencies are the script's numeric BANDWIDTH parameters, in MHz; they
    are modelled as exact rationals, and the comparisons and the subtraction
    of the checks are the exact ones.  The bound values are binary64
    numbers: module [B64] repeats the four checks on binary64 numbers, where
    the subtraction of the separation checks rounds, and the two models are
    compared on the bounds between 2048 and 4096, which include both
    bands. *)

From stdpp Require Import base list strings pretty.
From Stdlib Require Import QArith Lqa Floats.

Close Scope Q_scope.
Open Scope string_scope.
Open Scope list_scope.

(** ** A state monad for the two stores *)

Definition State (S A : Type) : Type := S → A * S.

Section StateMonad.
Context {S : Type}.

Definition st_ret {A} (a : A) : State S A := λ s, (a, s).

Definition st_bind {A B} (m : State S A) (k : A → State S B) : State S B :=
  λ s, let '(a, s') := m s in k a s'.

Definition st_get : State S S := λ s, (s, s).

Definition st_modify (f : S → S) : State S unit := λ s, (tt, f s).

Definition exec {A} (m : State S A) (s : S) : S := snd (m s).

Definition when (b : bool) (m : State S unit) : State S unit :=
  if b then m else st_ret tt.

(** [for x in xs: body(x)] *)
Fixpoint for_each {A} (xs : list A) (body : A → State S unit) : State S unit :=
  match xs with
  | [] => st_ret tt
  | x :: xs' => st_bind (body x) (λ _, for_each xs' body)
  end.
End StateMonad.

Notation "x <- m ;; k" := (st_bind m (λ x, k))
  (at level 100, m at next level, k at level 200, right associativity).
Notation "m ;;; k" := (st_bind m (λ _, k))
  (at level 100, k at level 200, right associativity).

(** Python's [enumerate]: the elements paired with 0, 1, 2, ... *)
Fixpoint enumerate_from {A} (start : nat) (xs : list A) : list (nat * A) :=
  match xs with
  | [] => []
  | x :: xs' => (start, x) :: enumerate_from (S start) xs'
  end.

Definition enumerate {A} (xs : list A) : list (nat * A) := enumerate_from 0 xs.

(** ** Numeric comparisons on frequencies *)

Definition Qlt_bool (x y : Q) : bool := negb (Qle_bool y x).

(** ** Constants of the script *)

Module GLOBALS.
Definition SRSLTE_IMG : string :=
  "urn:publicid:IDN+emulab.net+image+PowderTeam:U18LL-SRSLTE".
Definition SRSLTE_SRC_DS : string :=
  "urn:publicid:IDN+emulab.net:powderteam+imdataset+srslte-src-v19".
Definition DLDEFLOFREQ : Q := 2620%Q.
Definition DLDEFHIFREQ : Q := 2630%Q.
Definition ULDEFLOFREQ : Q := 2500%Q.
Definition ULDEFHIFREQ : Q := 2510%Q.
End GLOBALS.

(** ** The bound parameter set *)

Record X310Radio := { radio_name : string }.
Record B210Node := { aggregate_id : string }.

Record Params := {
  include_srslte_src : bool;
  x310_pair_nodetype : string;
  x310_radios : list X310Radio;
  b210_nodes : list B210Node;
  ul_freq_min : Q;
  ul_freq_max : Q;
  dl_freq_min : Q;
  dl_freq_max : Q
}.

(** ** The portal context: reported parameter errors *)

Record ParameterError := {
  message : string;
  fields : list string
}.

Record Context := { parameterErrors : list ParameterError }.

Definition new_context : Context := {| parameterErrors := [] |}.

(** [portal.context.reportError(perr)]: the error is recorded and the script
    goes on. *)
Definition reportError (perr : ParameterError) : State Context unit :=
  st_modify (λ c, {| parameterErrors := parameterErrors c ++ [perr] |}).

(** Modelled from the spec: [portal.context.verifyParameters] belongs to the
    hosting library and is not part of the script.  Section 7 of the
    specification: "the run simply does not proceed to assembly if any error
    was reported".  [true] means the script goes on. *)
Definition verifyParameters (c : Context) : bool :=
  match parameterErrors c with
  | [] => true
  | _ :: _ => false
  end.

(** ** The request store *)

Inductive Service := Execute (shell command : string).

Record IPv4Address := { address : string; netmask : string }.

Record Interface := {
  if_name : string;
  addresses : list IPv4Address
}.

Record Blockstore := {
  bs_name : string;
  mount : string;
  dataset : option string
}.

Record RawPC := {
  name : string;
  hardware_type : option string;
  disk_image : option string;
  component_manager_id : option string;
  component_id : option string;
  services : list Service;
  blockstores : list Blockstore;
  interfaces : list Interface
}.

(** Handles: a resource is referred to by its position in the request, an
    interface or a blockstore by its node and its position in the node. *)
Definition NodeRef := nat.
Definition LinkRef := nat.
Definition IfRef := (nat * nat)%type.
Definition BsRef := (nat * nat)%type.

(** What a link was given: an interface ([addInterface]) or a node
    ([addNode]). *)
Inductive LinkMember :=
| MemberInterface (i : IfRef)
| MemberNode (n : NodeRef).

Record Link := {
  link_name : string;
  bandwidth : option Z;
  members : list LinkMember
}.

Inductive Resource :=
| RNode (n : RawPC)
| RLink (l : Link).

(** A spectrum range; [priority] is the third positional argument of
    [requestSpectrum]. *)
Record Spectrum := {
  frequency_low : Q;
  frequency_high : Q;
  priority : Z
}.

Record Request := {
  resources : list Resource;
  spectrum : list Spectrum
}.

(** [portal.context.makeRequestRSpec()] *)
Definition makeRequestRSpec : Request := {| resources := []; spectrum := [] |}.

Definition on_node (f : RawPC → RawPC) (r : Resource) : Resource :=
  match r with
  | RNode n => RNode (f n)
  | RLink l => RLink l
  end.

Definition on_link (f : Link → Link) (r : Resource) : Resource :=
  match r with
  | RNode n => RNode n
  | RLink l => RLink (f l)
  end.

Definition add_resource (r : Resource) : State Request nat :=
  λ g, (length (resources g),
        {| resources := resources g ++ [r]; spectrum := spectrum g |}).

Definition update_resource (h : nat) (f : Resource → Resource) : State Request unit :=
  st_modify (λ g, {| resources := alter f h (resources g); spectrum := spectrum g |}).

Definition update_node (h : NodeRef) (f : RawPC → RawPC) : State Request unit :=
  update_resource h (on_node f).

Definition update_link (h : LinkRef) (f : Link → Link) : State Request unit :=
  update_resource h (on_link f).

(** [request.RawPC(name)] *)
Definition new_RawPC (nm : string) : RawPC :=
  {| name := nm; hardware_type := None; disk_image := None;
     component_manager_id := None; component_id := None;
     services := []; blockstores := []; interfaces := [] |}.

Definition request_RawPC (nm : string) : State Request NodeRef :=
  add_resource (RNode (new_RawPC nm)).

(** [request.Link(name)] *)
Definition request_Link (nm : string) : State Request LinkRef :=
  add_resource (RLink {| link_name := nm; bandwidth := None; members := [] |}).

(** Attribute assignments *)
Definition set_bandwidth (l : LinkRef) (bw : Z) : State Request unit :=
  update_link l (λ k, {| link_name := link_name k; bandwidth := Some bw;
                         members := members k |}).

Definition set_hardware_type (n : NodeRef) (v : string) : State Request unit :=
  update_node n (λ x,
    {| name := name x; hardware_type := Some v; disk_image := disk_image x;
       component_manager_id := component_manager_id x;
       component_id := component_id x; services := services x;
       blockstores := blockstores x; interfaces := interfaces x |}).

Definition set_disk_image (n : NodeRef) (v : string) : State Request unit :=
  update_node n (λ x,
    {| name := name x; hardware_type := hardware_type x; disk_image := Some v;
       component_manager_id := component_manager_id x;
       component_id := component_id x; services := services x;
       blockstores := blockstores x; interfaces := interfaces x |}).

Definition set_component_manager_id (n : NodeRef) (v : string) : State Request unit :=
  update_node n (λ x,
    {| name := name x; hardware_type := hardware_type x;
       disk_image := disk_image x; component_manager_id := Some v;
       component_id := component_id x; services := services x;
       blockstores := blockstores x; interfaces := interfaces x |}).

Definition set_component_id (n : NodeRef) (v : string) : State Request unit :=
  update_node n (λ x,
    {| name := name x; hardware_type := hardware_type x;
       disk_image := disk_image x;
       component_manager_id := component_manager_id x;
       component_id := Some v; services := services x;
       blockstores := blockstores x; interfaces := interfaces x |}).

Definition with_blockstores (f : list Blockstore → list Blockstore) (x : RawPC) : RawPC :=
  {| name := name x; hardware_type := hardware_type x;
     disk_image := disk_image x;
     component_manager_id := component_manager_id x;
     component_id := component_id x; services := services x;
     blockstores := f (blockstores x); interfaces := interfaces x |}.

Definition with_interfaces (f : list Interface → list Interface) (x : RawPC) : RawPC :=
  {| name := name x; hardware_type := hardware_type x;
     disk_image := disk_image x;
     component_manager_id := component_manager_id x;
     component_id := component_id x; services := services x;
     blockstores := blockstores x; interfaces := f (interfaces x) |}.

(** [node.addService(svc)] *)
Definition addService (n : NodeRef) (svc : Service) : State Request unit :=
  update_node n (λ x,
    {| name := name x; hardware_type := hardware_type x;
       disk_image := disk_image x;
       component_manager_id := component_manager_id x;
       component_id := component_id x; services := services x ++ [svc];
       blockstores := blockstores x; interfaces := interfaces x |}).

(** The number of blockstores, resp. interfaces, a node has so far (0 when
    the handle is not a node). *)
Definition count_in_node (f : RawPC → nat) (n : NodeRef) (g : Request) : nat :=
  match resources g !! n with
  | Some (RNode x) => f x
  | _ => 0%nat
  end.

(** [node.Blockstore(name, mount)] *)
Definition node_Blockstore (n : NodeRef) (nm mnt : string) : State Request BsRef :=
  g <- st_get ;;
  update_node n (with_blockstores
    (λ bs, bs ++ [{| bs_name := nm; mount := mnt; dataset := None |}])) ;;;
  st_ret (n, count_in_node (λ x, length (blockstores x)) n g).

(** [bs.dataset = ds] *)
Definition set_dataset (b : BsRef) (ds : string) : State Request unit :=
  update_node b.1 (with_blockstores (alter
    (λ s, {| bs_name := bs_name s; mount := mount s; dataset := Some ds |}) b.2)).

(** [node.addInterface(name)] *)
Definition addInterface (n : NodeRef) (nm : string) : State Request IfRef :=
  g <- st_get ;;
  update_node n (with_interfaces
    (λ ifs, ifs ++ [{| if_name := nm; addresses := [] |}])) ;;;
  st_ret (n, count_in_node (λ x, length (interfaces x)) n g).

(** [iface.addAddress(addr)] *)
Definition addAddress (i : IfRef) (a : IPv4Address) : State Request unit :=
  update_node i.1 (with_interfaces (alter
    (λ s, {| if_name := if_name s; addresses := addresses s ++ [a] |}) i.2)).

(** [link.addInterface(iface)] and [link.addNode(node)] *)
Definition link_add (l : LinkRef) (m : LinkMember) : State Request unit :=
  update_link l (λ k, {| link_name := link_name k; bandwidth := bandwidth k;
                         members := members k ++ [m] |}).

Definition link_addInterface (l : LinkRef) (i : IfRef) : State Request unit :=
  link_add l (MemberInterface i).

Definition link_addNode (l : LinkRef) (n : NodeRef) : State Request unit :=
  link_add l (MemberNode n).

(** [request.requestSpectrum(low, high, p)] *)
Definition requestSpectrum (lo hi : Q) (p : Z) : State Request unit :=
  st_modify (λ g,
    {| resources := resources g;
       spectrum := spectrum g ++
         [{| frequency_low := lo; frequency_high := hi; priority := p |}] |}).

(** ** The node-pair builders *)

Definition cm_emulab : string := "urn:publicid:IDN+emulab.net+authority+cm".

Definition x310_node_pair (params : Params) (idx : nat) (x310_radio : X310Radio)
  : State Request unit :=
  radio_link <- request_Link ("radio-link-" +:+ pretty idx) ;;
  set_bandwidth radio_link (10 * 1000 * 1000)%Z ;;;
  node <- request_RawPC (radio_name x310_radio +:+ "-comp") ;;
  set_hardware_type node (x310_pair_nodetype params) ;;;
  set_disk_image node GLOBALS.SRSLTE_IMG ;;;
  set_component_manager_id node cm_emulab ;;;
  addService node (Execute "bash" "/local/repository/bin/add-nat-and-ip-forwarding.sh") ;;;
  addService node (Execute "bash" "/local/repository/bin/update-config-files.sh") ;;;
  addService node (Execute "bash" "/local/repository/bin/tune-cpu.sh") ;;;
  addService node (Execute "bash" "/local/repository/bin/tune-sdr-iface.sh") ;;;
  when (include_srslte_src params)
    (bs <- node_Blockstore node ("bs-comp-" +:+ pretty idx) "/opt/srslte" ;;
     set_dataset bs GLOBALS.SRSLTE_SRC_DS) ;;;
  node_radio_if <- addInterface node "usrp_if" ;;
  addAddress node_radio_if
    {| address := "192.168.40.1"; netmask := "255.255.255.0" |} ;;;
  link_addInterface radio_link node_radio_if ;;;
  radio <- request_RawPC (radio_name x310_radio +:+ "-x310") ;;
  set_component_id radio (radio_name x310_radio) ;;;
  set_component_manager_id radio cm_emulab ;;;
  link_addNode radio_link radio.

Definition b210_nuc_pair (params : Params) (idx : nat) (b210_node : B210Node)
  : State Request unit :=
  b210_nuc_pair_node <-
    request_RawPC ("b210-" +:+ aggregate_id b210_node +:+ "-" +:+ "nuc2") ;;
  (let agg_full_name :=
     "urn:publicid:IDN+" +:+ aggregate_id b210_node +:+
     ".powderwireless.net+authority+cm" in
   set_component_manager_id b210_nuc_pair_node agg_full_name) ;;;
  set_component_id b210_nuc_pair_node "nuc2" ;;;
  set_disk_image b210_nuc_pair_node GLOBALS.SRSLTE_IMG ;;;
  addService b210_nuc_pair_node
    (Execute "bash" "/local/repository/bin/update-config-files.sh") ;;;
  addService b210_nuc_pair_node
    (Execute "bash" "/local/repository/bin/tune-cpu.sh") ;;;
  when (include_srslte_src params)
    (bs <- node_Blockstore b210_nuc_pair_node ("bs-nuc-" +:+ pretty idx) "/opt/srslte" ;;
     set_dataset bs GLOBALS.SRSLTE_SRC_DS).

(** ** The script body *)

Definition err_ul_band : ParameterError :=
  {| message := "Band 7 uplink frequencies must be between 2500 and 2570 MHz";
     fields := ["ul_freq_min"; "ul_freq_max"] |}.

Definition err_ul_separation : ParameterError :=
  {| message := "Minimum and maximum frequencies must be separated by at least 1 MHz";
     fields := ["ul_freq_min"; "ul_freq_max"] |}.

Definition err_dl_band : ParameterError :=
  {| message := "Band 7 downlink frequencies must be between 2620 and 2690 MHz";
     fields := ["dl_freq_min"; "dl_freq_max"] |}.

Definition err_dl_separation : ParameterError :=
  {| message := "Minimum and maximum frequencies must be separated by at least 1 MHz";
     fields := ["dl_freq_min"; "dl_freq_max"] |}.

(** The conditions of the four [if] statements. *)
Definition ul_band_violated (params : Params) : bool :=
  Qlt_bool (ul_freq_min params) 2500%Q || Qlt_bool 2570%Q (ul_freq_min params)
  || Qlt_bool (ul_freq_max params) 2500%Q || Qlt_bool 2570%Q (ul_freq_max params).

Definition ul_separation_violated (params : Params) : bool :=
  Qlt_bool (ul_freq_max params - ul_freq_min params)%Q 1%Q.

Definition dl_band_violated (params : Params) : bool :=
  Qlt_bool (dl_freq_min params) 2620%Q || Qlt_bool 2690%Q (dl_freq_min params)
  || Qlt_bool (dl_freq_max params) 2620%Q || Qlt_bool 2690%Q (dl_freq_max params).

Definition dl_separation_violated (params : Params) : bool :=
  Qlt_bool (dl_freq_max params - dl_freq_min params)%Q 1%Q.

(** "Check frequency parameters." *)
Definition check_frequency_parameters (params : Params) : State Context unit :=
  when (ul_band_violated params) (reportError err_ul_band) ;;;
  when (ul_separation_violated params) (reportError err_ul_separation) ;;;
  when (dl_band_violated params) (reportError err_dl_band) ;;;
  when (dl_separation_violated params) (reportError err_dl_separation).

(** The errors the checks have reported when [verifyParameters] is reached. *)
Definition reported (params : Params) : list ParameterError :=
  parameterErrors (exec (check_frequency_parameters params) new_context).

(** "Lastly, request resources." *)
Definition request_resources (params : Params) : State Request unit :=
  for_each (enumerate (x310_radios params))
    (λ '(i, x310_radio), x310_node_pair params i x310_radio) ;;;
  for_each (enumerate (b210_nodes params))
    (λ '(i, b210_node), b210_nuc_pair params i b210_node) ;;;
  requestSpectrum (ul_freq_min params) (ul_freq_max params) 0%Z ;;;
  requestSpectrum (dl_freq_min params) (dl_freq_max params) 0%Z.

(** How a run of the script ends: stopped by [verifyParameters] with the
    reported errors, or with the request it prints. *)
Inductive Outcome :=
| Rejected (errs : list ParameterError)
| Printed (request : Request).

Definition profile (params : Params) : Outcome :=
  let context := exec (check_frequency_parameters params) new_context in
  if verifyParameters context
  then Printed (exec (request_resources params) makeRequestRSpec)
  else Rejected (parameterErrors context).

(** ** Closed forms of what the builders add *)

Definition x310_comp_node (params : Params) (idx : nat) (x310_radio : X310Radio) : RawPC :=
  {| name := radio_name x310_radio +:+ "-comp";
     hardware_type := Some (x310_pair_nodetype params);
     disk_image := Some GLOBALS.SRSLTE_IMG;
     component_manager_id := Some cm_emulab;
     component_id := None;
     services :=
       [Execute "bash" "/local/repository/bin/add-nat-and-ip-forwarding.sh";
        Execute "bash" "/local/repository/bin/update-config-files.sh";
        Execute "bash" "/local/repository/bin/tune-cpu.sh";
        Execute "bash" "/local/repository/bin/tune-sdr-iface.sh"];
     blockstores :=
       if include_srslte_src params
       then [{| bs_name := "bs-comp-" +:+ pretty idx; mount := "/opt/srslte";
                dataset := Some GLOBALS.SRSLTE_SRC_DS |}]
       else [];
     interfaces :=
       [{| if_name := "usrp_if";
           addresses := [{| address := "192.168.40.1"; netmask := "255.255.255.0" |}] |}] |}.

Definition x310_radio_link (idx : nat) (node radio : NodeRef) : Link :=
  {| link_name := "radio-link-" +:+ pretty idx;
     bandwidth := Some (10 * 1000 * 1000)%Z;
     members := [MemberInterface (node, 0%nat); MemberNode radio] |}.

Definition x310_radio_node (x310_radio : X310Radio) : RawPC :=
  {| name := radio_name x310_radio +:+ "-x310";
     hardware_type := None;
     disk_image := None;
     component_manager_id := Some cm_emulab;
     component_id := Some (radio_name x310_radio);
     services := []; blockstores := []; interfaces := [] |}.

Definition b210_nuc_node (params : Params) (idx : nat) (b210_node : B210Node) : RawPC :=
  {| name := "b210-" +:+ aggregate_id b210_node +:+ "-" +:+ "nuc2";
     hardware_type := None;
     disk_image := Some GLOBALS.SRSLTE_IMG;
     component_manager_id :=
       Some ("urn:publicid:IDN+" +:+ aggregate_id b210_node +:+
             ".powderwireless.net+authority+cm");
     component_id := Some "nuc2";
     services :=
       [Execute "bash" "/local/repository/bin/update-config-files.sh";
        Execute "bash" "/local/repository/bin/tune-cpu.sh"];
     blockstores :=
       if include_srslte_src params
       then [{| bs_name := "bs-nuc-" +:+ pretty idx; mount := "/opt/srslte";
                dataset := Some GLOBALS.SRSLTE_SRC_DS |}]
       else [];
     interfaces := [] |}.

(** The three resources one rooftop pair adds to a request that already
    holds [base] resources, and the one resource a fixed-endpoint pair adds. *)
Definition x310_resources (params : Params) (base idx : nat) (r : X310Radio)
  : list Resource :=
  [RLink (x310_radio_link idx (base + 1) (base + 2));
   RNode (x310_comp_node params idx r);
   RNode (x310_radio_node r)].

Definition b210_resources (params : Params) (idx : nat) (n : B210Node)
  : list Resource :=
  [RNode (b210_nuc_node params idx n)].

(** ** The request the loops build, in closed form *)

Fixpoint x310_all (params : Params) (base idx : nat) (rs : list X310Radio)
  : list Resource :=
  match rs with
  | [] => []
  | r :: rs' =>
      x310_resources params base idx r ++ x310_all params (base + 3) (S idx) rs'
  end.

Fixpoint b210_all (params : Params) (idx : nat) (ns : list B210Node)
  : list Resource :=
  match ns with
  | [] => []
  | n :: ns' => b210_resources params idx n ++ b210_all params (S idx) ns'
  end.

Definition ul_spectrum (params : Params) : Spectrum :=
  {| frequency_low := ul_freq_min params; frequency_high := ul_freq_max params;
     priority := 0 |}.

Definition dl_spectrum (params : Params) : Spectrum :=
  {| frequency_low := dl_freq_min params; frequency_high := dl_freq_max params;
     priority := 0 |}.

(** The request a run prints when no error was reported. *)
Definition printed_request (params : Params) : Request :=
  {| resources :=
       x310_all params 0 0 (x310_radios params) ++
       b210_all params 0 (b210_nodes params);
     spectrum := [ul_spectrum params; dl_spectrum params] |}.

(** ** Observations on a request *)

Definition as_node (r : Resource) : option RawPC :=
  match r with RNode n => Some n | RLink _ => None end.

Definition as_link (r : Resource) : option Link :=
  match r with RLink l => Some l | RNode _ => None end.

Definition nodes (g : Request) : list RawPC := omap as_node (resources g).

Definition links (g : Request) : list Link := omap as_link (resources g).

Definition node_names (g : Request) : list string := name <$> nodes g.

(** All storage mounts of the request, node after node. *)
Definition storage_mounts (g : Request) : list Blockstore :=
  nodes g ≫= blockstores.

(** ** Example parameter sets *)

Definition default_params : Params :=
  {| include_srslte_src := false; x310_pair_nodetype := "d740";
     x310_radios := []; b210_nodes := [];
     ul_freq_min := GLOBALS.ULDEFLOFREQ; ul_freq_max := GLOBALS.ULDEFHIFREQ;
     dl_freq_min := GLOBALS.DLDEFLOFREQ; dl_freq_max := GLOBALS.DLDEFHIFREQ |}.

Definition with_frequencies (ul_lo ul_hi dl_lo dl_hi : Q) (params : Params) : Params :=
  {| include_srslte_src := include_srslte_src params;
     x310_pair_nodetype := x310_pair_nodetype params;
     x310_radios := x310_radios params; b210_nodes := b210_nodes params;
     ul_freq_min := ul_lo; ul_freq_max := ul_hi;
     dl_freq_min := dl_lo; dl_freq_max := dl_hi |}.

Definition with_selection (rs : list string) (ns : list string) (params : Params) : Params :=
  {| include_srslte_src := include_srslte_src params;
     x310_pair_nodetype := x310_pair_nodetype params;
     x310_radios := Build_X310Radio <$> rs; b210_nodes := Build_B210Node <$> ns;
     ul_freq_min := ul_freq_min params; ul_freq_max := ul_freq_max params;
     dl_freq_min := dl_freq_min params; dl_freq_max := dl_freq_max params |}.

Definition with_include_srslte_src (b : bool) (params : Params) : Params :=
  {| include_srslte_src := b;
     x310_pair_nodetype := x310_pair_nodetype params;
     x310_radios := x310_radios params; b210_nodes := b210_nodes params;
     ul_freq_min := ul_freq_min params; ul_freq_max := ul_freq_max params;
     dl_freq_min := dl_freq_min params; dl_freq_max := dl_freq_max params |}.

(** Both bands left, both pairs too close. *)
Definition bad_params : Params :=
  with_frequencies 2499.5%Q 2499.7%Q 2700%Q 2700.25%Q default_params.

(** The first hardware set of the profile's instructions. *)
Definition web_browning_params : Params :=
  with_selection ["cellsdr1-browning"] ["web"] default_params.


(** ** Node names

    The three name patterns of the builders, as functions of the selected
    radio name or aggregate. *)

Definition comp_name (r : string) : string := r +:+ "-comp".
Definition x310_name (r : string) : string := r +:+ "-x310".
Definition nuc_name (a : string) : string := "b210-" +:+ a +:+ "-" +:+ "nuc2".

(** The names of the two nodes of a rooftop pair. *)
Definition pair_names (r : string) : list string := [comp_name r; x310_name r].

(** The same rooftop radio selected twice. *)
Definition twice_browning_params : Params :=
  with_selection ["cellsdr1-browning"; "cellsdr1-browning"] [] default_params.

(** Two rooftop radios and two fixed-endpoint sites, all different. *)
Definition two_pairs_params : Params :=
  with_selection ["cellsdr1-browning"; "cellsdr1-meb"] ["web"; "bookstore"]
    default_params.

(** ** The assembler's calls *)

(** The calls the assembler makes on the request. *)
Inductive Call :=
| call_x310_node_pair (idx : nat) (x310_radio : X310Radio)
| call_b210_nuc_pair (idx : nat) (b210_node : B210Node)
| call_requestSpectrum (lo hi : Q) (p : Z).

Definition perform (params : Params) (c : Call) : State Request unit :=
  match c with
  | call_x310_node_pair idx x310_radio => x310_node_pair params idx x310_radio
  | call_b210_nuc_pair idx b210_node => b210_nuc_pair params idx b210_node
  | call_requestSpectrum lo hi p => requestSpectrum lo hi p
  end.

(** The call sequence in the words of section 4.4 of the specification: the
    rooftop builder for each selected radio in input order with indices
    0, 1, 2, ..., then the fixed-endpoint builder for each selected site in
    input order with indices starting again at 0, then the uplink and the
    downlink spectrum range. *)
Definition assembler_calls_spec (params : Params) : list Call :=
  imap call_x310_node_pair (x310_radios params) ++
  imap call_b210_nuc_pair (b210_nodes params) ++
  [call_requestSpectrum (ul_freq_min params) (ul_freq_max params) 0;
   call_requestSpectrum (dl_freq_min params) (dl_freq_max params) 0].

(** The request after the calls [cs], made in order on [g]. *)
Definition perform_all (params : Params) (cs : list Call) (g : Request) : Request :=
  foldl (λ g' c, exec (perform params c) g') g cs.

(** ** Storage mounts and addresses *)

(** The compute nodes are the nodes the script gives a disk image: the node
    paired with an X310 and the NUC of a fixed endpoint.  The X310 itself is
    requested without one. *)
Definition is_compute_node (x : RawPC) : bool :=
  match disk_image x with
  | Some _ => true
  | None => false
  end.

(** The same request with every storage mount removed. *)
Definition without_storage (g : Request) : Request :=
  {| resources := on_node (with_blockstores (λ _, [])) <$> resources g;
     spectrum := spectrum g |}.

(** What the flag gives a node: one mount of the source dataset on a
    compute node, nothing on a radio node. *)
Definition source_mounted (x : RawPC) : Prop :=
  if is_compute_node x
  then ∃ nm, blockstores x =
             [{| bs_name := nm; mount := "/opt/srslte";
                 dataset := Some "urn:publicid:IDN+emulab.net:powderteam+imdataset+srslte-src-v19" |}]
  else blockstores x = [].

(** Every address assigned in the request, interface after interface. *)
Definition assigned_addresses (g : Request) : list IPv4Address :=
  (nodes g ≫= interfaces) ≫= addresses.

(** Two rooftop radios, no fixed endpoint. *)
Definition two_rooftops_params : Params :=
  with_selection ["cellsdr1-browning"; "cellsdr1-meb"] [] default_params.

(** ** Further observations *)

Definition link_names (g : Request) : list string := link_name <$> links g.

Definition storage_mount_names (g : Request) : list string :=
  bs_name <$> storage_mounts g.

(** The four startup commands of the compute node of a rooftop pair and the
    two of a fixed-endpoint node, in the order the builders add them. *)
Definition x310_startup : list Service :=
  [Execute "bash" "/local/repository/bin/add-nat-and-ip-forwarding.sh";
   Execute "bash" "/local/repository/bin/update-config-files.sh";
   Execute "bash" "/local/repository/bin/tune-cpu.sh";
   Execute "bash" "/local/repository/bin/tune-sdr-iface.sh"].

Definition b210_startup : list Service :=
  [Execute "bash" "/local/repository/bin/update-config-files.sh";
   Execute "bash" "/local/repository/bin/tune-cpu.sh"].

(** The widest accepted ranges: the whole uplink and downlink band. *)
Definition full_band_params : Params :=
  with_frequencies 2500%Q 2570%Q 2620%Q 2690%Q default_params.

(** ** The frequency checks on binary64 numbers *)

(** The four [if] statements of the script on binary64 numbers, with the
    kernel's binary64 comparisons and subtraction: [x > c] is [c < x], and
    the difference of a separation check is the rounded one. *)
Module B64.
Record Frequencies := {
  ul_freq_min : float;
  ul_freq_max : float;
  dl_freq_min : float;
  dl_freq_max : float
}.

Definition ul_band_violated (params : Frequencies) : bool :=
  (ul_freq_min params <? 2500)%float || (2570 <? ul_freq_min params)%float
  || (ul_freq_max params <? 2500)%float || (2570 <? ul_freq_max params)%float.

Definition ul_separation_violated (params : Frequencies) : bool :=
  (ul_freq_max params - ul_freq_min params <? 1)%float.

Definition dl_band_violated (params : Frequencies) : bool :=
  (dl_freq_min params <? 2620)%float || (2690 <? dl_freq_min params)%float
  || (dl_freq_max params <? 2620)%float || (2690 <? dl_freq_max params)%float.

Definition dl_separation_violated (params : Frequencies) : bool :=
  (dl_freq_max params - dl_freq_min params <? 1)%float.

Definition check_frequency_parameters (params : Frequencies) : State Context unit :=
  when (ul_band_violated params) (reportError err_ul_band) ;;;
  when (ul_separation_violated params) (reportError err_ul_separation) ;;;
  when (dl_band_violated params) (reportError err_dl_band) ;;;
  when (dl_separation_violated params) (reportError err_dl_separation).

Definition reported (params : Frequencies) : list ParameterError :=
  parameterErrors (exec (check_frequency_parameters params) new_context).
End B64.

(** The rational a binary64 number stands for: (-1)^s * m * 2^e for a finite
    number, and 0 for a zero (and, by convention, for an infinity or a
    NaN). *)
Definition SF2Q (x : spec_float) : Q :=
  match x with
  | S754_finite s m e =>
      let z := if s then Z.neg m else Z.pos m in
      match e with
      | Z0 => z # 1
      | Z.pos p => z * Z.pos (2 ^ p) # 1
      | Z.neg p => z # 2 ^ p
      end
  | _ => 0%Q
  end.

Definition exact (x : float) : Q := SF2Q (Prim2SF x).

(** The binary64 numbers from 2048 up to 4096, in the script's comparisons.
    They share one exponent, so their differences are binary64 numbers. *)
Definition in_binade (x : float) : bool := (2048 <=? x)%float && (x <? 4096)%float.

(** 1, 2048 and 4096 as binary64 numbers. *)
Definition one64 : spec_float := S754_finite false 4503599627370496 (-52).
Definition c2048 : spec_float := S754_finite false 4503599627370496 (-41).
Definition c4096 : spec_float := S754_finite false 4503599627370496 (-40).




(** The parameter set with the rationals the four binary64 bounds stand
    for. *)
Definition exact_frequencies (f : B64.Frequencies) (params : Params) : Params :=
  with_frequencies
    (exact (B64.ul_freq_min f)) (exact (B64.ul_freq_max f))
    (exact (B64.dl_freq_min f)) (exact (B64.dl_freq_max f)) params.

(** The band edges, all four in band, 70 MHz wide. *)
Definition band_edge_frequencies : B64.Frequencies :=
  {| B64.ul_freq_min := 2500; B64.ul_freq_max := 2570;
     B64.dl_freq_min := 2620; B64.dl_freq_max := 2690 |}.

(** * Proofs *)

(** ** Symbolic execution of the store primitives *)

Lemma add_resource_at r l t sp :
  add_resource r {| resources := l ++ t; spectrum := sp |} =
  ((length l + length t)%nat, {| resources := l ++ (t ++ [r]); spectrum := sp |}).
Proof. unfold add_resource; cbn. by rewrite length_app, app_assoc. Qed.

Lemma update_resource_at i f l t sp :
  update_resource (length l + i) f {| resources := l ++ t; spectrum := sp |} =
  (tt, {| resources := l ++ alter f i t; spectrum := sp |}).
Proof. unfold update_resource, st_modify; cbn. by rewrite alter_app_r. Qed.

Lemma count_in_node_at f i l t sp :
  count_in_node f (length l + i) {| resources := l ++ t; spectrum := sp |} =
  match t !! i with Some (RNode x) => f x | _ => 0%nat end.
Proof. unfold count_in_node; cbn. by rewrite lookup_app_r, Nat.add_comm, Nat.add_sub by lia. Qed.

#[local] Arguments add_resource : simpl never.
#[local] Arguments update_resource : simpl never.
#[local] Arguments count_in_node : simpl never.

Ltac store_step :=
  first [ rewrite add_resource_at
        | rewrite update_resource_at
        | rewrite count_in_node_at ]; cbn.

Ltac store_unfold :=
  unfold exec, request_Link, request_RawPC, set_bandwidth, set_hardware_type,
    set_disk_image, set_component_manager_id, set_component_id, addService,
    node_Blockstore, set_dataset, addInterface, addAddress, link_addInterface,
    link_addNode, link_add, update_link, update_node, when, st_bind, st_get,
    st_ret; cbn.

Lemma exec_x310_node_pair params idx r g :
  exec (x310_node_pair params idx r) g =
  {| resources := resources g ++ x310_resources params (length (resources g)) idx r;
     spectrum := spectrum g |}.
Proof.
  destruct g as [l sp]; cbn [resources spectrum].
  rewrite <- (app_nil_r l) at 1.
  unfold x310_node_pair, x310_resources, x310_comp_node.
  destruct (include_srslte_src params); store_unfold; repeat store_step;
    reflexivity.
Qed.

Lemma exec_b210_nuc_pair params idx n g :
  exec (b210_nuc_pair params idx n) g =
  {| resources := resources g ++ b210_resources params idx n;
     spectrum := spectrum g |}.
Proof.
  destruct g as [l sp]; cbn [resources spectrum].
  rewrite <- (app_nil_r l) at 1.
  unfold b210_nuc_pair, b210_resources, b210_nuc_node.
  destruct (include_srslte_src params); store_unfold; repeat store_step;
    reflexivity.
Qed.

(** Sequencing and loops, on final states. *)
Lemma exec_bind {S A B} (m : State S A) (k : A → State S B) (s : S) :
  exec (st_bind m k) s = exec (k (m s).1) (exec m s).
Proof. unfold exec, st_bind. by destruct (m s). Qed.

Lemma exec_seq {S A} (m : State S A) (k : State S unit) (s : S) :
  exec (m ;;; k) s = exec k (exec m s).
Proof. apply exec_bind. Qed.

Lemma exec_for_each {S A} (body : A → State S unit) (xs : list A) (s : S) :
  exec (for_each xs body) s = foldl (λ s' x, exec (body x) s') s xs.
Proof.
  revert s; induction xs as [|x xs IH]; intros s; [done|].
  cbn [for_each foldl]. by rewrite exec_seq, IH.
Qed.

Lemma enumerate_from_imap {A} (start : nat) (xs : list A) :
  enumerate_from start xs = imap (λ i x, ((start + i)%nat, x)) xs.
Proof.
  revert start; induction xs as [|x xs IH]; intros start; [done|].
  cbn [enumerate_from]. rewrite imap_cons, IH, Nat.add_0_r. f_equal.
  apply imap_ext; intros i y _; cbn. f_equal; lia.
Qed.

Lemma enumerate_imap {A} (xs : list A) : enumerate xs = imap pair xs.
Proof. unfold enumerate. by rewrite enumerate_from_imap. Qed.

Lemma exec_x310_loop params idx rs g :
  exec (for_each (enumerate_from idx rs)
          (λ '(i, x310_radio), x310_node_pair params i x310_radio)) g =
  {| resources := resources g ++ x310_all params (length (resources g)) idx rs;
     spectrum := spectrum g |}.
Proof.
  revert idx g; induction rs as [|r rs IH]; intros idx g.
  - destruct g; cbn. by rewrite app_nil_r.
  - cbn [enumerate_from for_each x310_all].
    rewrite exec_seq, exec_x310_node_pair, IH. cbn [resources spectrum].
    rewrite length_app, <- app_assoc. reflexivity.
Qed.

Lemma exec_b210_loop params idx ns g :
  exec (for_each (enumerate_from idx ns)
          (λ '(i, b210_node), b210_nuc_pair params i b210_node)) g =
  {| resources := resources g ++ b210_all params idx ns;
     spectrum := spectrum g |}.
Proof.
  revert idx g; induction ns as [|n ns IH]; intros idx g.
  - destruct g; cbn. by rewrite app_nil_r.
  - cbn [enumerate_from for_each b210_all].
    rewrite exec_seq, exec_b210_nuc_pair, IH. cbn [resources spectrum].
    by rewrite <- app_assoc.
Qed.

Lemma exec_request_resources params g :
  exec (request_resources params) g =
  {| resources :=
       resources g ++
       x310_all params (length (resources g)) 0 (x310_radios params) ++
       b210_all params 0 (b210_nodes params);
     spectrum := spectrum g ++ [ul_spectrum params; dl_spectrum params] |}.
Proof.
  unfold request_resources, enumerate.
  rewrite !exec_seq, exec_x310_loop, exec_b210_loop.
  unfold exec, requestSpectrum, st_modify; cbn.
  by rewrite <- !app_assoc.
Qed.

Lemma verifyParameters_reported params :
  verifyParameters (exec (check_frequency_parameters params) new_context) =
  bool_decide (reported params = []).
Proof.
  unfold verifyParameters. fold (reported params).
  by destruct (reported params).
Qed.

Lemma profile_passes params :
  reported params = [] → profile params = Printed (printed_request params).
Proof.
  intros H. unfold profile. rewrite verifyParameters_reported, H.
  rewrite bool_decide_eq_true_2 by done.
  by rewrite exec_request_resources.
Qed.


(** ** The checks *)

Lemma Qlt_bool_iff (x y : Q) : Qlt_bool x y = true ↔ (x < y)%Q.
Proof.
  unfold Qlt_bool. rewrite negb_true_iff, <- not_true_iff_false, Qle_bool_iff.
  split; [apply Qnot_le_lt | apply Qlt_not_le].
Qed.

Lemma reported_closed_form params :
  reported params =
  (if ul_band_violated params then [err_ul_band] else []) ++
  (if ul_separation_violated params then [err_ul_separation] else []) ++
  (if dl_band_violated params then [err_dl_band] else []) ++
  (if dl_separation_violated params then [err_dl_separation] else []).
Proof.
  unfold reported, check_frequency_parameters.
  destruct (ul_band_violated params), (ul_separation_violated params),
    (dl_band_violated params), (dl_separation_violated params); reflexivity.
Qed.

Lemma ul_band_violated_iff params :
  ul_band_violated params = true ↔
  (ul_freq_min params < 2500 ∨ 2570 < ul_freq_min params ∨
   ul_freq_max params < 2500 ∨ 2570 < ul_freq_max params)%Q.
Proof.
  unfold ul_band_violated. rewrite !orb_true_iff, !Qlt_bool_iff. tauto.
Qed.

Lemma dl_band_violated_iff params :
  dl_band_violated params = true ↔
  (dl_freq_min params < 2620 ∨ 2690 < dl_freq_min params ∨
   dl_freq_max params < 2620 ∨ 2690 < dl_freq_max params)%Q.
Proof.
  unfold dl_band_violated. rewrite !orb_true_iff, !Qlt_bool_iff. tauto.
Qed.

Lemma elem_of_reported params e :
  e ∈ reported params ↔
  (ul_band_violated params = true ∧ e = err_ul_band) ∨
  (ul_separation_violated params = true ∧ e = err_ul_separation) ∨
  (dl_band_violated params = true ∧ e = err_dl_band) ∨
  (dl_separation_violated params = true ∧ e = err_dl_separation).
Proof.
  rewrite reported_closed_form, !elem_of_app.
  destruct (ul_band_violated params), (ul_separation_violated params),
    (dl_band_violated params), (dl_separation_violated params);
    rewrite ?list_elem_of_singleton, ?elem_of_nil; intuition discriminate.
Qed.

(** ** C1 *)

(** C1: whenever one of the uplink bounds lies outside [2500, 2570] the
    checks report the band error that names [ul_freq_min] and
    [ul_freq_max]; whenever one of the downlink bounds lies outside
    [2620, 2690] they report the band error that names [dl_freq_min] and
    [dl_freq_max]. *)
Theorem C1_band_errors (params : Params) :
  ((ul_freq_min params < 2500 ∨ 2570 < ul_freq_min params ∨
    ul_freq_max params < 2500 ∨ 2570 < ul_freq_max params)%Q →
   {| message := "Band 7 uplink frequencies must be between 2500 and 2570 MHz";
      fields := ["ul_freq_min"; "ul_freq_max"] |} ∈ reported params) ∧
  ((dl_freq_min params < 2620 ∨ 2690 < dl_freq_min params ∨
    dl_freq_max params < 2620 ∨ 2690 < dl_freq_max params)%Q →
   {| message := "Band 7 downlink frequencies must be between 2620 and 2690 MHz";
      fields := ["dl_freq_min"; "dl_freq_max"] |} ∈ reported params).
Proof.
  split; intros H.
  - apply ul_band_violated_iff in H. apply elem_of_reported. by left.
  - apply dl_band_violated_iff in H. apply elem_of_reported.
    right; right; by left.
Qed.

Lemma C1_band_errors_witness :
  {| message := "Band 7 uplink frequencies must be between 2500 and 2570 MHz";
     fields := ["ul_freq_min"; "ul_freq_max"] |} ∈ reported bad_params ∧
  {| message := "Band 7 downlink frequencies must be between 2620 and 2690 MHz";
     fields := ["dl_freq_min"; "dl_freq_max"] |} ∈ reported bad_params.
Proof.
  split.
  - apply (proj1 (C1_band_errors bad_params)). left. reflexivity.
  - apply (proj2 (C1_band_errors bad_params)). right; left. reflexivity.
Defined.

(** ** C3 *)



(** ** C5 and C6 *)

(** C5: with the single rooftop selection "cellsdr1-browning" and the single
    fixed-endpoint selection "web", a run that passes the checks prints a
    request with exactly four resources, in this order: one link, the paired
    compute node, the radio node and the fixed-endpoint compute node; and
    with exactly two spectrum ranges. *)
Theorem C5_one_radio_one_endpoint (params : Params) :
  reported params = [] →
  x310_radios params = [{| radio_name := "cellsdr1-browning" |}] →
  b210_nodes params = [{| aggregate_id := "web" |}] →
  ∃ g radio_link comp radio nuc,
    profile params = Printed g ∧
    resources g = [RLink radio_link; RNode comp; RNode radio; RNode nuc] ∧
    length (links g) = 1%nat ∧ length (nodes g) = 3%nat ∧
    link_name radio_link = "radio-link-0" ∧
    members radio_link = [MemberInterface (1%nat, 0%nat); MemberNode 2%nat] ∧
    name comp = "cellsdr1-browning-comp" ∧
    hardware_type comp = Some (x310_pair_nodetype params) ∧
    disk_image comp = Some GLOBALS.SRSLTE_IMG ∧
    name radio = "cellsdr1-browning-x310" ∧
    component_id radio = Some "cellsdr1-browning" ∧
    disk_image radio = None ∧
    name nuc = "b210-web-nuc2" ∧
    component_id nuc = Some "nuc2" ∧
    disk_image nuc = Some GLOBALS.SRSLTE_IMG ∧
    length (spectrum g) = 2%nat.
Proof.
  intros Hok Hr Hn. rewrite (profile_passes _ Hok).
  unfold printed_request. rewrite Hr, Hn. cbn [x310_all b210_all].
  do 5 eexists. split; [reflexivity|]. cbn.
  split; [reflexivity|]. repeat split.
Qed.

Lemma C5_one_radio_one_endpoint_witness :
  ∃ g radio_link comp radio nuc,
    profile web_browning_params = Printed g ∧
    resources g = [RLink radio_link; RNode comp; RNode radio; RNode nuc] ∧
    length (links g) = 1%nat ∧ length (nodes g) = 3%nat ∧
    link_name radio_link = "radio-link-0" ∧
    members radio_link = [MemberInterface (1%nat, 0%nat); MemberNode 2%nat] ∧
    name comp = "cellsdr1-browning-comp" ∧
    hardware_type comp = Some (x310_pair_nodetype web_browning_params) ∧
    disk_image comp = Some GLOBALS.SRSLTE_IMG ∧
    name radio = "cellsdr1-browning-x310" ∧
    component_id radio = Some "cellsdr1-browning" ∧
    disk_image radio = None ∧
    name nuc = "b210-web-nuc2" ∧
    component_id nuc = Some "nuc2" ∧
    disk_image nuc = Some GLOBALS.SRSLTE_IMG ∧
    length (spectrum g) = 2%nat.
Proof.
  apply (C5_one_radio_one_endpoint web_browning_params); reflexivity.
Defined.

(** C6: with no rooftop selection and no fixed-endpoint selection, a run
    that passes the checks prints a request with no resource at all (no
    node, no link, no storage mount) and exactly the two spectrum ranges. *)
Theorem C6_empty_selection (params : Params) :
  reported params = [] →
  x310_radios params = [] →
  b210_nodes params = [] →
  ∃ g,
    profile params = Printed g ∧
    resources g = [] ∧ nodes g = [] ∧ links g = [] ∧ storage_mounts g = [] ∧
    length (spectrum g) = 2%nat.
Proof.
  intros Hok Hr Hn. rewrite (profile_passes _ Hok).
  unfold printed_request. rewrite Hr, Hn. cbn [x310_all b210_all app].
  eexists. split; [reflexivity|]. repeat split.
Qed.

Lemma C6_empty_selection_witness :
  ∃ g,
    profile default_params = Printed g ∧
    resources g = [] ∧ nodes g = [] ∧ links g = [] ∧ storage_mounts g = [] ∧
    length (spectrum g) = 2%nat.
Proof.
  apply (C6_empty_selection default_params); reflexivity.
Defined.

(** ** C10 *)

(** C10: a run that passes the checks prints a request whose spectrum ranges
    are exactly the uplink range and then the downlink range, both with 0 as
    third argument. *)
Theorem C10_spectrum_requests (params : Params) :
  reported params = [] →
  ∃ g,
    profile params = Printed g ∧
    spectrum g =
      [{| frequency_low := ul_freq_min params;
          frequency_high := ul_freq_max params; priority := 0 |};
       {| frequency_low := dl_freq_min params;
          frequency_high := dl_freq_max params; priority := 0 |}].
Proof.
  intros Hok. rewrite (profile_passes _ Hok). by eexists.
Qed.

Lemma C10_spectrum_requests_witness :
  ∃ g,
    profile web_browning_params = Printed g ∧
    spectrum g =
      [{| frequency_low := 2500%Q; frequency_high := 2510%Q; priority := 0 |};
       {| frequency_low := 2620%Q; frequency_high := 2630%Q; priority := 0 |}].
Proof.
  apply (C10_spectrum_requests web_browning_params). reflexivity.
Defined.

(** ** Node names *)

Section StringFacts.
Abbreviation chars := String.list_ascii_of_string.

Lemma chars_app (s t : string) : chars (s +:+ t) = chars s ++ chars t.
Proof.
  induction s as [|c s IH]; [done|].
  change (c :: chars (s +:+ t) = c :: (chars s ++ chars t)). by rewrite IH.
Qed.

Lemma chars_inj (s t : string) : chars s = chars t → s = t.
Proof.
  intros E. rewrite <- (String.string_of_list_ascii_of_string s),
    <- (String.string_of_list_ascii_of_string t). by rewrite E.
Qed.

Lemma length_chars (s : string) : length (chars s) = String.length s.
Proof. induction s as [|c s IH]; cbn; [done|]. by rewrite IH. Qed.

(** Two strings with suffixes of the same length are equal only when the
    prefixes and the suffixes are. *)
Lemma string_app_inj_suffix (s1 s2 t1 t2 : string) :
  String.length t1 = String.length t2 →
  s1 +:+ t1 = s2 +:+ t2 → s1 = s2 ∧ t1 = t2.
Proof.
  intros L E. apply (f_equal chars) in E.
  rewrite !chars_app in E.
  apply app_inj_2 in E as [E1 E2].
  - split; by apply chars_inj.
  - by rewrite !length_chars.
Qed.
End StringFacts.

Lemma comp_name_inj r1 r2 : comp_name r1 = comp_name r2 → r1 = r2.
Proof. intros E. by apply string_app_inj_suffix in E as [E _]. Qed.

Lemma x310_name_inj r1 r2 : x310_name r1 = x310_name r2 → r1 = r2.
Proof. intros E. by apply string_app_inj_suffix in E as [E _]. Qed.

Lemma comp_name_x310_name r1 r2 : comp_name r1 ≠ x310_name r2.
Proof. intros E. by apply string_app_inj_suffix in E as [_ E]. Qed.

#[local] Instance nuc_name_inj : Inj (=) (=) nuc_name.
Proof.
  intros a1 a2 E. unfold nuc_name in E.
  apply (inj (String.append "b210-")) in E.
  by apply string_app_inj_suffix in E as [E _].
Qed.

Lemma nuc_name_comp_name a r : nuc_name a ≠ comp_name r.
Proof.
  unfold nuc_name, comp_name. intros E.
  change ("b210-" +:+ a +:+ "-" +:+ "nuc2") with (("b210-" +:+ a) +:+ "-nuc2") in E.
  by apply string_app_inj_suffix in E as [_ E].
Qed.

Lemma nuc_name_x310_name a r : nuc_name a ≠ x310_name r.
Proof.
  unfold nuc_name, x310_name. intros E.
  change ("b210-" +:+ a +:+ "-" +:+ "nuc2") with (("b210-" +:+ a) +:+ "-nuc2") in E.
  by apply string_app_inj_suffix in E as [_ E].
Qed.

Lemma nodes_x310_all params base idx rs :
  omap as_node (x310_all params base idx rs) =
  mjoin (imap (λ i r, [x310_comp_node params (idx + i) r; x310_radio_node r]) rs).
Proof.
  revert base idx; induction rs as [|r rs IH]; intros base idx; [done|].
  cbn [x310_all x310_resources]. rewrite omap_app, IH, imap_cons.
  cbn. rewrite Nat.add_0_r. do 3 f_equal.
  apply imap_ext; intros i x _; cbn. by rewrite Nat.add_succ_r.
Qed.

Lemma nodes_b210_all params idx ns :
  omap as_node (b210_all params idx ns) =
  imap (λ i n, b210_nuc_node params (idx + i) n) ns.
Proof.
  revert idx; induction ns as [|n ns IH]; intros idx; [done|].
  cbn [b210_all b210_resources]. rewrite omap_app, IH, imap_cons.
  cbn. rewrite Nat.add_0_r. f_equal.
  apply imap_ext; intros i x _; cbn. by rewrite Nat.add_succ_r.
Qed.

Lemma nodes_printed_request params :
  nodes (printed_request params) =
  mjoin (imap (λ i r, [x310_comp_node params i r; x310_radio_node r])
           (x310_radios params)) ++
  imap (b210_nuc_node params) (b210_nodes params).
Proof.
  unfold nodes, printed_request; cbn [resources].
  by rewrite omap_app, nodes_x310_all, nodes_b210_all.
Qed.

Lemma fmap_join_imap {A B C} (f : B → C) (h : nat → A → list B) (xs : list A) :
  f <$> mjoin (imap h xs) = mjoin (imap (λ i x, f <$> h i x) xs).
Proof.
  revert h; induction xs as [|x xs IH]; intros h; [done|].
  rewrite !imap_cons. cbn. by rewrite fmap_app, IH.
Qed.

Lemma join_imap_const {A B} (h : A → list B) (xs : list A) :
  mjoin (imap (λ _, h) xs) = xs ≫= h.
Proof.
  induction xs as [|x xs IH]; [done|].
  rewrite imap_cons. cbn. f_equal. exact IH.
Qed.

Lemma node_names_printed_request params :
  node_names (printed_request params) =
  ((radio_name <$> x310_radios params) ≫= pair_names) ++
  (nuc_name <$> (aggregate_id <$> b210_nodes params)).
Proof.
  unfold node_names. rewrite nodes_printed_request, fmap_app, fmap_join_imap.
  f_equal.
  - cbn. rewrite (join_imap_const (λ r, [comp_name (radio_name r); x310_name (radio_name r)])).
    induction (x310_radios params) as [|r rs IH]; [done|]. cbn. by rewrite IH.
  - rewrite fmap_imap. cbn. rewrite <- list_fmap_compose.
    induction (b210_nodes params) as [|n ns IH]; [done|].
    rewrite imap_cons. cbn. f_equal. rewrite <- IH.
    by apply imap_ext.
Qed.

Lemma elem_of_pair_names (l : list string) (x : string) :
  x ∈ l ≫= pair_names ↔ ∃ r, r ∈ l ∧ (x = comp_name r ∨ x = x310_name r).
Proof.
  rewrite list_elem_of_bind. unfold pair_names. split.
  - intros (r & Hx & Hr). exists r. split; [done|].
    apply elem_of_cons in Hx as [->|Hx]; [by left|].
    apply list_elem_of_singleton in Hx as ->. by right.
  - intros (r & Hr & [->| ->]); exists r; split; try done.
    + apply elem_of_cons. by left.
    + apply elem_of_cons. right. by apply list_elem_of_singleton.
Qed.

Lemma NoDup_pair_names (l : list string) :
  NoDup (l ≫= pair_names) ↔ NoDup l.
Proof.
  induction l as [|a l IH]; [done|].
  change ((a :: l) ≫= pair_names)
    with (comp_name a :: x310_name a :: (l ≫= pair_names)).
  rewrite !NoDup_cons, IH, elem_of_cons, !elem_of_pair_names.
  split.
  - intros (_ & Hx & Hl). split; [|done].
    intros Ha. apply Hx. exists a. split; [done|]. by right.
  - intros (Ha & Hl). repeat split; [| |done].
    + intros [E|(r & Hr & [E|E])].
      * by apply comp_name_x310_name in E.
      * apply comp_name_inj in E as ->. done.
      * by apply comp_name_x310_name in E.
    + intros (r & Hr & [E|E]).
      * symmetry in E. by apply comp_name_x310_name in E.
      * apply x310_name_inj in E as ->. done.
Qed.

Lemma NoDup_node_names params :
  NoDup (node_names (printed_request params)) ↔
  NoDup (radio_name <$> x310_radios params) ∧
  NoDup (aggregate_id <$> b210_nodes params).
Proof.
  rewrite node_names_printed_request, NoDup_app, NoDup_pair_names,
    (NoDup_fmap nuc_name).
  split; [tauto|]. intros [Hr Hn]. repeat split; [done| |done].
  intros x Hx Hx'. apply elem_of_pair_names in Hx as (r & _ & E).
  apply list_elem_of_fmap in Hx' as (a & -> & _).
  destruct E as [E|E].
  - by apply nuc_name_comp_name in E.
  - by apply nuc_name_x310_name in E.
Qed.

(** ** C4 *)

(** C4, as stated, fails: the parameter set that selects "cellsdr1-browning"
    twice passes the checks, and the printed request holds two nodes named
    "cellsdr1-browning-comp" (and two named "cellsdr1-browning-x310"). *)
Lemma C4_duplicate_selection_counterexample :
  reported twice_browning_params = [] ∧
  ∃ g, profile twice_browning_params = Printed g ∧
       node_names g =
         ["cellsdr1-browning-comp"; "cellsdr1-browning-x310";
          "cellsdr1-browning-comp"; "cellsdr1-browning-x310"] ∧
       ¬ NoDup (node_names g).
Proof.
  split; [reflexivity|]. exists (printed_request twice_browning_params).
  split; [by apply profile_passes|].
  assert (node_names (printed_request twice_browning_params) =
          ["cellsdr1-browning-comp"; "cellsdr1-browning-x310";
           "cellsdr1-browning-comp"; "cellsdr1-browning-x310"]) as E
    by reflexivity.
  split; [exact E|]. rewrite E. clear E.
  rewrite NoDup_cons. intros [H _]. apply H.
  apply elem_of_cons; right. apply elem_of_cons; by left.
Qed.

(** C4 (amended): in the request printed by a run that passes the checks,
    the node names are pairwise distinct exactly when no rooftop radio name
    and no fixed-endpoint aggregate is selected twice. *)
Theorem C4_node_names_distinct (params : Params) :
  reported params = [] →
  ∃ g, profile params = Printed g ∧
       (NoDup (node_names g) ↔
        NoDup (radio_name <$> x310_radios params) ∧
        NoDup (aggregate_id <$> b210_nodes params)).
Proof.
  intros Hok. rewrite (profile_passes _ Hok). eexists. split; [reflexivity|].
  apply NoDup_node_names.
Qed.

Lemma C4_node_names_distinct_witness :
  ∃ g, profile two_pairs_params = Printed g ∧
       (NoDup (node_names g) ↔
        NoDup ["cellsdr1-browning"; "cellsdr1-meb"] ∧
        NoDup ["web"; "bookstore"]).
Proof.
  apply (C4_node_names_distinct two_pairs_params). reflexivity.
Defined.

(** ** The call sequence of the assembly *)

Lemma exec_x310_calls params idx rs g :
  exec (for_each (enumerate_from idx rs)
          (λ '(i, x310_radio), x310_node_pair params i x310_radio)) g =
  perform_all params (imap (λ i, call_x310_node_pair (idx + i)) rs) g.
Proof.
  unfold perform_all.
  revert idx g; induction rs as [|r rs IH]; intros idx g; [done|].
  cbn [enumerate_from for_each]. rewrite exec_seq, IH, imap_cons.
  cbn [foldl perform]. rewrite Nat.add_0_r. f_equal.
  apply imap_ext; intros i x _; cbn. by rewrite Nat.add_succ_r.
Qed.

Lemma exec_b210_calls params idx ns g :
  exec (for_each (enumerate_from idx ns)
          (λ '(i, b210_node), b210_nuc_pair params i b210_node)) g =
  perform_all params (imap (λ i, call_b210_nuc_pair (idx + i)) ns) g.
Proof.
  unfold perform_all.
  revert idx g; induction ns as [|n ns IH]; intros idx g; [done|].
  cbn [enumerate_from for_each]. rewrite exec_seq, IH, imap_cons.
  cbn [foldl perform]. rewrite Nat.add_0_r. f_equal.
  apply imap_ext; intros i x _; cbn. by rewrite Nat.add_succ_r.
Qed.

Lemma request_resources_calls params g :
  exec (request_resources params) g =
  perform_all params (assembler_calls_spec params) g.
Proof.
  unfold request_resources, enumerate, assembler_calls_spec.
  rewrite !exec_seq, exec_x310_calls, exec_b210_calls.
  unfold perform_all. rewrite !foldl_app. reflexivity.
Qed.

(** ** C7 *)

Lemma strip_x310_all params base idx rs :
  on_node (with_blockstores (λ _, [])) <$>
    x310_all (with_include_srslte_src true params) base idx rs =
  x310_all (with_include_srslte_src false params) base idx rs.
Proof.
  revert base idx; induction rs as [|r rs IH]; intros base idx; [done|].
  cbn [x310_all x310_resources app fmap list_fmap]. by rewrite <- IH.
Qed.

Lemma strip_b210_all params idx ns :
  on_node (with_blockstores (λ _, [])) <$>
    b210_all (with_include_srslte_src true params) idx ns =
  b210_all (with_include_srslte_src false params) idx ns.
Proof.
  revert idx; induction ns as [|n ns IH]; intros idx; [done|].
  cbn [b210_all b210_resources app fmap list_fmap]. by rewrite <- IH.
Qed.

Lemma mounted_x310_all params base idx rs :
  Forall source_mounted
    (omap as_node (x310_all (with_include_srslte_src true params) base idx rs)).
Proof.
  revert base idx; induction rs as [|r rs IH]; intros base idx; [constructor|].
  cbn [x310_all x310_resources app omap list_omap as_node].
  constructor; [by eexists|]. constructor; [done|]. apply IH.
Qed.

Lemma mounted_b210_all params idx ns :
  Forall source_mounted
    (omap as_node (b210_all (with_include_srslte_src true params) idx ns)).
Proof.
  revert idx; induction ns as [|n ns IH]; intros idx; [constructor|].
  cbn [b210_all b210_resources app omap list_omap as_node].
  constructor; [by eexists|]. apply IH.
Qed.

Lemma unmounted_x310_all params base idx rs :
  omap as_node (x310_all (with_include_srslte_src false params) base idx rs)
    ≫= blockstores = [].
Proof.
  revert base idx; induction rs as [|r rs IH]; intros base idx; [done|].
  cbn [x310_all x310_resources app omap list_omap as_node].
  cbn. apply IH.
Qed.

Lemma unmounted_b210_all params idx ns :
  omap as_node (b210_all (with_include_srslte_src false params) idx ns)
    ≫= blockstores = [].
Proof.
  revert idx; induction ns as [|n ns IH]; intros idx; [done|].
  cbn [b210_all b210_resources app omap list_omap as_node].
  cbn. apply IH.
Qed.

Lemma count_mounts_x310_all params base idx rs :
  length (omap as_node (x310_all (with_include_srslte_src true params) base idx rs)
            ≫= blockstores) = length rs ∧
  length (filter is_compute_node
            (omap as_node (x310_all (with_include_srslte_src true params) base idx rs)))
    = length rs.
Proof.
  revert base idx; induction rs as [|r rs IH]; intros base idx; [done|].
  destruct (IH (base + 3)%nat (S idx)) as [IH1 IH2].
  cbn [x310_all x310_resources app omap list_omap as_node].
  split.
  - cbn. by rewrite IH1.
  - rewrite filter_cons_True by done. rewrite filter_cons_False by (by intros ?).
    cbn. by rewrite IH2.
Qed.

Lemma count_mounts_b210_all params idx ns :
  length (omap as_node (b210_all (with_include_srslte_src true params) idx ns)
            ≫= blockstores) = length ns ∧
  length (filter is_compute_node
            (omap as_node (b210_all (with_include_srslte_src true params) idx ns)))
    = length ns.
Proof.
  revert idx; induction ns as [|n ns IH]; intros idx; [done|].
  destruct (IH (S idx)) as [IH1 IH2].
  cbn [b210_all b210_resources app omap list_omap as_node].
  split.
  - cbn. by rewrite IH1.
  - rewrite filter_cons_True by done. cbn. by rewrite IH2.
Qed.

(** C7: for a parameter set that passes the checks, the request printed with
    the flag on is the request printed with the flag off with storage mounts
    added and nothing else changed: removing the mounts from the first gives
    the second, which has none; and with the flag on every compute node has
    exactly one mount, of the source dataset at /opt/srslte, and every other
    node has none. *)
Theorem C7_include_source_adds_mounts (params : Params) :
  reported params = [] →
  ∃ g_off g_on,
    profile (with_include_srslte_src false params) = Printed g_off ∧
    profile (with_include_srslte_src true params) = Printed g_on ∧
    without_storage g_on = g_off ∧
    storage_mounts g_off = [] ∧
    Forall source_mounted (nodes g_on) ∧
    length (storage_mounts g_on) = length (filter is_compute_node (nodes g_on)) ∧
    length (storage_mounts g_on) =
      (length (x310_radios params) + length (b210_nodes params))%nat.
Proof.
  intros Hok.
  exists (printed_request (with_include_srslte_src false params)),
    (printed_request (with_include_srslte_src true params)).
  split; [by apply profile_passes|]. split; [by apply profile_passes|].
  unfold without_storage, storage_mounts, nodes, printed_request.
  cbn [resources spectrum x310_radios b210_nodes with_include_srslte_src].
  split; [|split; [|split; [|split]]].
  - rewrite fmap_app, strip_x310_all, strip_b210_all. reflexivity.
  - rewrite omap_app, bind_app, unmounted_x310_all, unmounted_b210_all.
    reflexivity.
  - rewrite omap_app. apply Forall_app.
    split; [apply mounted_x310_all | apply mounted_b210_all].
  - rewrite omap_app, bind_app, filter_app, !length_app.
    destruct (count_mounts_x310_all params 0 0 (x310_radios params)) as [-> ->].
    destruct (count_mounts_b210_all params 0 (b210_nodes params)) as [-> ->].
    reflexivity.
  - rewrite omap_app, bind_app, !length_app.
    destruct (count_mounts_x310_all params 0 0 (x310_radios params)) as [-> _].
    destruct (count_mounts_b210_all params 0 (b210_nodes params)) as [-> _].
    reflexivity.
Qed.

Lemma C7_include_source_adds_mounts_witness :
  ∃ g_off g_on,
    profile (with_include_srslte_src false two_pairs_params) = Printed g_off ∧
    profile (with_include_srslte_src true two_pairs_params) = Printed g_on ∧
    without_storage g_on = g_off ∧
    storage_mounts g_off = [] ∧
    Forall source_mounted (nodes g_on) ∧
    length (storage_mounts g_on) = length (filter is_compute_node (nodes g_on)) ∧
    length (storage_mounts g_on) = 4%nat.
Proof.
  apply (C7_include_source_adds_mounts two_pairs_params). reflexivity.
Defined.

(** ** C9 *)

Lemma addresses_x310_all params base idx rs :
  (omap as_node (x310_all params base idx rs) ≫= interfaces) ≫= addresses =
  replicate (length rs)
    {| address := "192.168.40.1"; netmask := "255.255.255.0" |}.
Proof.
  revert base idx; induction rs as [|r rs IH]; intros base idx; [done|].
  cbn [x310_all x310_resources app omap list_omap as_node].
  cbn. f_equal. apply IH.
Qed.

Lemma addresses_b210_all params idx ns :
  omap as_node (b210_all params idx ns) ≫= interfaces = [].
Proof.
  revert idx; induction ns as [|n ns IH]; intros idx; [done|].
  cbn [b210_all b210_resources app omap list_omap as_node].
  cbn. apply IH.
Qed.

(** C9: whatever the flag, the index, the radio and the request built so
    far, the rooftop builder adds a link, a compute node and a radio node;
    the compute node has the single interface "usrp_if", the one given to
    the link, with the single address 192.168.40.1 / 255.255.255.0.  The
    fixed-endpoint builder adds one node, with no interface and so no
    address.  Hence a run that passes the checks assigns that same address
    once per selected rooftop radio, and no other address. *)
Theorem C9_fixed_radio_address :
  (∀ params idx x310_radio g,
     ∃ radio_link comp radio,
       resources (exec (x310_node_pair params idx x310_radio) g) =
         resources g ++ [RLink radio_link; RNode comp; RNode radio] ∧
       interfaces comp =
         [{| if_name := "usrp_if";
             addresses :=
               [{| address := "192.168.40.1"; netmask := "255.255.255.0" |}] |}] ∧
       members radio_link =
         [MemberInterface ((length (resources g) + 1)%nat, 0%nat);
          MemberNode (length (resources g) + 2)%nat] ∧
       interfaces radio = []) ∧
  (∀ params idx b210_node g,
     ∃ nuc,
       resources (exec (b210_nuc_pair params idx b210_node) g) =
         resources g ++ [RNode nuc] ∧
       interfaces nuc = []) ∧
  (∀ params,
     reported params = [] →
     ∃ g, profile params = Printed g ∧
          assigned_addresses g =
            replicate (length (x310_radios params))
              {| address := "192.168.40.1"; netmask := "255.255.255.0" |}).
Proof.
  split; [|split].
  - intros params idx r g. rewrite exec_x310_node_pair.
    do 3 eexists. split; [reflexivity|]. by repeat split.
  - intros params idx n g. rewrite exec_b210_nuc_pair.
    eexists. split; [reflexivity|]. done.
  - intros params Hok. rewrite (profile_passes _ Hok). eexists.
    split; [reflexivity|].
    unfold assigned_addresses, nodes, printed_request. cbn [resources].
    rewrite omap_app, !bind_app, addresses_x310_all, addresses_b210_all.
    cbn. by rewrite app_nil_r.
Qed.

Lemma C9_fixed_radio_address_witness :
  ∃ g, profile two_rooftops_params = Printed g ∧
       assigned_addresses g =
         [{| address := "192.168.40.1"; netmask := "255.255.255.0" |};
          {| address := "192.168.40.1"; netmask := "255.255.255.0" |}].
Proof.
  apply (proj2 (proj2 C9_fixed_radio_address) two_rooftops_params).
  reflexivity.
Defined.

(** * Further properties of the script *)

(** ** The checks, exactly *)

Lemma Qlt_bool_false_iff (x y : Q) : Qlt_bool x y = false ↔ (y <= x)%Q.
Proof.
  unfold Qlt_bool. rewrite negb_false_iff. apply Qle_bool_iff.
Qed.

Lemma reported_nil_iff params :
  reported params = [] ↔
  ul_band_violated params = false ∧ ul_separation_violated params = false ∧
  dl_band_violated params = false ∧ dl_separation_violated params = false.
Proof.
  rewrite reported_closed_form.
  destruct (ul_band_violated params), (ul_separation_violated params),
    (dl_band_violated params), (dl_separation_violated params);
    cbn; intuition discriminate.
Qed.

(** X1: the checks report nothing exactly when the four bounds lie in their
    bands and each maximum is at least 1 above its minimum. *)
Theorem checks_pass_iff (params : Params) :
  reported params = [] ↔
  (2500 <= ul_freq_min params ∧ ul_freq_min params <= 2570 ∧
   2500 <= ul_freq_max params ∧ ul_freq_max params <= 2570 ∧
   1 <= ul_freq_max params - ul_freq_min params ∧
   2620 <= dl_freq_min params ∧ dl_freq_min params <= 2690 ∧
   2620 <= dl_freq_max params ∧ dl_freq_max params <= 2690 ∧
   1 <= dl_freq_max params - dl_freq_min params)%Q.
Proof.
  rewrite reported_nil_iff.
  unfold ul_band_violated, dl_band_violated, ul_separation_violated,
    dl_separation_violated.
  rewrite !orb_false_iff, !Qlt_bool_false_iff. tauto.
Qed.

Lemma checks_pass_iff_witness : reported full_band_params = [].
Proof.
  apply (proj2 (checks_pass_iff full_band_params)).
  repeat split; discriminate.
Defined.

(** X2: in the request of a run that passes the checks, the uplink range
    lies in [2500, 2570], the downlink range in [2620, 2690], both are
    between 1 and 70 MHz wide, and the uplink range ends at least 50 MHz
    below the start of the downlink range. *)
Theorem printed_spectrum_in_band (params : Params) :
  reported params = [] →
  ∃ g ul dl,
    profile params = Printed g ∧ spectrum g = [ul; dl] ∧
    (2500 <= frequency_low ul ∧ frequency_high ul <= 2570 ∧
     frequency_low ul + 1 <= frequency_high ul ∧
     frequency_high ul - frequency_low ul <= 70 ∧
     2620 <= frequency_low dl ∧ frequency_high dl <= 2690 ∧
     frequency_low dl + 1 <= frequency_high dl ∧
     frequency_high dl - frequency_low dl <= 70 ∧
     frequency_high ul + 50 <= frequency_low dl)%Q.
Proof.
  intros Hok. rewrite (profile_passes _ Hok).
  apply checks_pass_iff in Hok.
  destruct Hok as (H1 & H2 & H3 & H4 & H5 & H6 & H7 & H8 & H9 & H10).
  exists (printed_request params), (ul_spectrum params), (dl_spectrum params).
  split; [reflexivity|]. split; [reflexivity|].
  cbn [ul_spectrum dl_spectrum frequency_low frequency_high].
  repeat split; lra.
Qed.

Lemma printed_spectrum_in_band_witness :
  ∃ g ul dl,
    profile full_band_params = Printed g ∧ spectrum g = [ul; dl] ∧
    (2500 <= frequency_low ul ∧ frequency_high ul <= 2570 ∧
     frequency_low ul + 1 <= frequency_high ul ∧
     frequency_high ul - frequency_low ul <= 70 ∧
     2620 <= frequency_low dl ∧ frequency_high dl <= 2690 ∧
     frequency_low dl + 1 <= frequency_high dl ∧
     frequency_high dl - frequency_low dl <= 70 ∧
     frequency_high ul + 50 <= frequency_low dl)%Q.
Proof.
  apply (printed_spectrum_in_band full_band_params). reflexivity.
Defined.

(** X3: no error is reported twice, at most four are reported, and every
    reported error names exactly the two uplink fields or exactly the two
    downlink fields. *)
Theorem reported_errors_distinct (params : Params) :
  NoDup (reported params) ∧
  (length (reported params) <= 4)%nat ∧
  Forall (λ e, fields e = ["ul_freq_min"; "ul_freq_max"] ∨
               fields e = ["dl_freq_min"; "dl_freq_max"])
    (reported params).
Proof.
  rewrite reported_closed_form.
  destruct (ul_band_violated params), (ul_separation_violated params),
    (dl_band_violated params), (dl_separation_violated params); cbn;
    (split; [|split; [lia|]]);
    repeat first
      [ apply NoDup_nil_2
      | apply NoDup_cons_2;
        [rewrite ?elem_of_cons, elem_of_nil; intuition discriminate|]
      | apply Forall_nil_2
      | apply Forall_cons_2; [by (left + right)|] ].
Qed.

(** ** Size and layout of the printed request *)

Lemma length_x310_all params base idx rs :
  length (x310_all params base idx rs) = (3 * length rs)%nat.
Proof.
  revert base idx; induction rs as [|r rs IH]; intros base idx; [done|].
  cbn [x310_all x310_resources app length]. rewrite IH. lia.
Qed.

Lemma length_b210_all params idx ns :
  length (b210_all params idx ns) = length ns.
Proof.
  revert idx; induction ns as [|n ns IH]; intros idx; [done|].
  cbn [b210_all b210_resources app length]. by rewrite IH.
Qed.

Lemma links_x310_all params base idx rs :
  omap as_link (x310_all params base idx rs) =
  imap (λ i _, x310_radio_link (idx + i) (base + 3 * i + 1) (base + 3 * i + 2)) rs.
Proof.
  revert base idx; induction rs as [|r rs IH]; intros base idx; [done|].
  cbn [x310_all x310_resources app omap list_omap as_link].
  rewrite IH, imap_cons. f_equal.
  - f_equal; lia.
  - apply imap_ext; intros i x _; cbn. f_equal; lia.
Qed.

Lemma links_b210_all params idx ns : omap as_link (b210_all params idx ns) = [].
Proof.
  revert idx; induction ns as [|n ns IH]; intros idx; [done|].
  cbn [b210_all b210_resources app omap list_omap as_link]. apply IH.
Qed.

Lemma links_printed_request params :
  links (printed_request params) =
  imap (λ i _, x310_radio_link i (3 * i + 1) (3 * i + 2)) (x310_radios params).
Proof.
  unfold links, printed_request; cbn [resources].
  by rewrite omap_app, links_x310_all, links_b210_all, app_nil_r.
Qed.

Lemma count_nodes_x310_all params base idx rs :
  length (omap as_node (x310_all params base idx rs)) = (2 * length rs)%nat ∧
  length (filter is_compute_node (omap as_node (x310_all params base idx rs)))
    = length rs.
Proof.
  revert base idx; induction rs as [|r rs IH]; intros base idx; [done|].
  destruct (IH (base + 3)%nat (S idx)) as [IH1 IH2].
  cbn [x310_all x310_resources app omap list_omap as_node]. split.
  - cbn [length]. rewrite IH1. lia.
  - rewrite filter_cons_True by done. rewrite filter_cons_False by (by intros ?).
    cbn [length]. by rewrite IH2.
Qed.

Lemma count_nodes_b210_all params idx ns :
  length (omap as_node (b210_all params idx ns)) = length ns ∧
  length (filter is_compute_node (omap as_node (b210_all params idx ns)))
    = length ns.
Proof.
  revert idx; induction ns as [|n ns IH]; intros idx; [done|].
  destruct (IH (S idx)) as [IH1 IH2].
  cbn [b210_all b210_resources app omap list_omap as_node]. split.
  - cbn [length]. by rewrite IH1.
  - rewrite filter_cons_True by done. cbn [length]. by rewrite IH2.
Qed.

(** X4: a run that passes the checks prints, for r selected rooftop radios
    and s selected fixed-endpoint sites, 3r + s resources: r links and
    2r + s nodes, of which r + s are compute nodes; and two spectrum
    ranges. *)
Theorem printed_request_size (params : Params) :
  reported params = [] →
  ∃ g,
    profile params = Printed g ∧
    length (resources g) =
      (3 * length (x310_radios params) + length (b210_nodes params))%nat ∧
    length (links g) = length (x310_radios params) ∧
    length (nodes g) =
      (2 * length (x310_radios params) + length (b210_nodes params))%nat ∧
    length (filter is_compute_node (nodes g)) =
      (length (x310_radios params) + length (b210_nodes params))%nat ∧
    length (spectrum g) = 2%nat.
Proof.
  intros Hok. rewrite (profile_passes _ Hok). eexists. split; [reflexivity|].
  destruct (count_nodes_x310_all params 0 0 (x310_radios params)) as [N1 N2].
  destruct (count_nodes_b210_all params 0 (b210_nodes params)) as [M1 M2].
  repeat split.
  - unfold printed_request; cbn [resources].
    by rewrite length_app, length_x310_all, length_b210_all.
  - by rewrite links_printed_request, length_imap.
  - unfold nodes, printed_request; cbn [resources].
    by rewrite omap_app, length_app, N1, M1.
  - unfold nodes, printed_request; cbn [resources].
    by rewrite omap_app, filter_app, length_app, N2, M2.
Qed.

Lemma printed_request_size_witness :
  ∃ g,
    profile two_pairs_params = Printed g ∧
    length (resources g) = 8%nat ∧ length (links g) = 2%nat ∧
    length (nodes g) = 6%nat ∧
    length (filter is_compute_node (nodes g)) = 4%nat ∧
    length (spectrum g) = 2%nat.
Proof.
  apply (printed_request_size two_pairs_params). reflexivity.
Defined.

Lemma x310_all_lookup params base idx rs i r :
  rs !! i = Some r →
  x310_all params base idx rs !! (3 * i)%nat =
    Some (RLink (x310_radio_link (idx + i) (base + 3 * i + 1) (base + 3 * i + 2))) ∧
  x310_all params base idx rs !! (3 * i + 1)%nat =
    Some (RNode (x310_comp_node params (idx + i) r)) ∧
  x310_all params base idx rs !! (3 * i + 2)%nat =
    Some (RNode (x310_radio_node r)).
Proof.
  revert base idx i; induction rs as [|r' rs IH]; intros base idx i Hi; [done|].
  destruct i as [|i].
  - injection Hi as ->. cbn.
    replace (base + 0 + 1)%nat with (base + 1)%nat by lia.
    replace (base + 0 + 2)%nat with (base + 2)%nat by lia.
    by rewrite Nat.add_0_r.
  - cbn in Hi. destruct (IH (base + 3)%nat (S idx) i Hi) as (L & C & R).
    replace (3 * S i)%nat with (S (S (S (3 * i)))) by lia.
    cbn [x310_all x310_resources app lookup list_lookup Nat.add].
    replace (idx + S i)%nat with (S idx + i)%nat by lia.
    replace (base + S (S (S (3 * i))) + 1)%nat with (base + 3 + 3 * i + 1)%nat by lia.
    replace (base + S (S (S (3 * i))) + 2)%nat with (base + 3 + 3 * i + 2)%nat by lia.
    done.
Qed.

Lemma b210_all_lookup params idx ns j n :
  ns !! j = Some n →
  b210_all params idx ns !! j = Some (RNode (b210_nuc_node params (idx + j) n)).
Proof.
  revert idx j; induction ns as [|n' ns IH]; intros idx j Hj; [done|].
  destruct j as [|j].
  - injection Hj as ->. cbn. by rewrite Nat.add_0_r.
  - cbn in Hj. cbn [b210_all b210_resources app].
    change (b210_all params (S idx) ns !! j =
            Some (RNode (b210_nuc_node params (idx + S j) n))).
    rewrite (IH (S idx) j Hj). do 3 f_equal. lia.
Qed.

(** X5: in the request of a run that passes the checks, the i-th selected
    rooftop radio owns the resources at positions 3i, 3i+1 and 3i+2: the
    link "radio-link-i" of 10,000,000 in bandwidth, its compute node and its
    radio node.  The two handles the link holds resolve inside the request,
    to the interface "usrp_if" of that same compute node and to that same
    radio node, so no link is wired to the nodes of another pair. *)
Theorem rooftop_pair_layout (params : Params) (i : nat) (x310_radio : X310Radio) :
  reported params = [] →
  x310_radios params !! i = Some x310_radio →
  ∃ g radio_link comp radio usrp_if,
    profile params = Printed g ∧
    resources g !! (3 * i)%nat = Some (RLink radio_link) ∧
    resources g !! (3 * i + 1)%nat = Some (RNode comp) ∧
    resources g !! (3 * i + 2)%nat = Some (RNode radio) ∧
    link_name radio_link = "radio-link-" +:+ pretty i ∧
    bandwidth radio_link = Some 10000000%Z ∧
    members radio_link =
      [MemberInterface ((3 * i + 1)%nat, 0%nat); MemberNode (3 * i + 2)%nat] ∧
    interfaces comp !! 0%nat = Some usrp_if ∧
    if_name usrp_if = "usrp_if" ∧
    name comp = radio_name x310_radio +:+ "-comp" ∧
    hardware_type comp = Some (x310_pair_nodetype params) ∧
    disk_image comp = Some GLOBALS.SRSLTE_IMG ∧
    component_manager_id comp = Some "urn:publicid:IDN+emulab.net+authority+cm" ∧
    component_id comp = None ∧
    services comp = x310_startup ∧
    name radio = radio_name x310_radio +:+ "-x310" ∧
    component_id radio = Some (radio_name x310_radio) ∧
    component_manager_id radio = Some "urn:publicid:IDN+emulab.net+authority+cm" ∧
    hardware_type radio = None ∧ disk_image radio = None ∧
    services radio = [] ∧ blockstores radio = [] ∧ interfaces radio = [].
Proof.
  intros Hok Hi. rewrite (profile_passes _ Hok).
  destruct (x310_all_lookup params 0 0 _ _ _ Hi) as (L & C & R).
  do 5 eexists. split; [reflexivity|].
  unfold printed_request; cbn [resources].
  split; [apply lookup_app_l_Some, L|].
  split; [apply lookup_app_l_Some, C|].
  split; [apply lookup_app_l_Some, R|].
  split; [reflexivity|]. split; [reflexivity|]. split; [reflexivity|].
  split; [reflexivity|]. by repeat split.
Qed.

Lemma rooftop_pair_layout_witness :
  ∃ g radio_link comp radio,
    profile two_pairs_params = Printed g ∧
    resources g !! 3%nat = Some (RLink radio_link) ∧
    resources g !! 4%nat = Some (RNode comp) ∧
    resources g !! 5%nat = Some (RNode radio) ∧
    link_name radio_link = "radio-link-1" ∧
    members radio_link = [MemberInterface (4%nat, 0%nat); MemberNode 5%nat] ∧
    name comp = "cellsdr1-meb-comp" ∧
    name radio = "cellsdr1-meb-x310".
Proof.
  destruct (rooftop_pair_layout two_pairs_params 1
              {| radio_name := "cellsdr1-meb" |} eq_refl eq_refl)
    as (g & lk & comp & radio & ifc & Hp & H0 & H1 & H2 & Hn & _ & Hm & _ & _
        & Hc & _ & _ & _ & _ & _ & Hr & _).
  exists g, lk, comp, radio. repeat split; assumption.
Defined.

(** X6: in the request of a run that passes the checks, the j-th selected
    fixed-endpoint site owns the single resource at position 3r + j, after
    the resources of the r rooftop pairs: the node "b210-<site>-nuc2" on the
    component "nuc2" of the aggregate
    "urn:publicid:IDN+<site>.powderwireless.net+authority+cm", with the
    srsLTE image, the two startup commands, no hardware type and no
    interface. *)
Theorem fixed_endpoint_layout (params : Params) (j : nat) (b210_node : B210Node) :
  reported params = [] →
  b210_nodes params !! j = Some b210_node →
  ∃ g nuc,
    profile params = Printed g ∧
    resources g !! (3 * length (x310_radios params) + j)%nat = Some (RNode nuc) ∧
    name nuc = "b210-" +:+ aggregate_id b210_node +:+ "-nuc2" ∧
    component_manager_id nuc =
      Some ("urn:publicid:IDN+" +:+ aggregate_id b210_node +:+
            ".powderwireless.net+authority+cm") ∧
    component_id nuc = Some "nuc2" ∧
    disk_image nuc = Some GLOBALS.SRSLTE_IMG ∧
    hardware_type nuc = None ∧
    services nuc = b210_startup ∧
    interfaces nuc = [].
Proof.
  intros Hok Hj. rewrite (profile_passes _ Hok).
  do 2 eexists. split; [reflexivity|].
  unfold printed_request; cbn [resources].
  split.
  - rewrite lookup_app_r by (rewrite length_x310_all; lia).
    rewrite length_x310_all, Nat.add_comm, Nat.add_sub.
    apply (b210_all_lookup params 0 _ _ _ Hj).
  - by repeat split.
Qed.

Lemma fixed_endpoint_layout_witness :
  ∃ g nuc,
    profile two_pairs_params = Printed g ∧
    resources g !! 7%nat = Some (RNode nuc) ∧
    name nuc = "b210-bookstore-nuc2" ∧
    component_manager_id nuc =
      Some "urn:publicid:IDN+bookstore.powderwireless.net+authority+cm".
Proof.
  destruct (fixed_endpoint_layout two_pairs_params 1
              {| aggregate_id := "bookstore" |} eq_refl eq_refl)
    as (g & nuc & Hp & H0 & Hn & Hc & _).
  exists g, nuc. repeat split; assumption.
Defined.

(** ** Names that carry the index *)

Lemma NoDup_imap_index {A B} (f : nat → A → B) (l : list A) :
  (∀ i j x y, f i x = f j y → i = j) → NoDup (imap f l).
Proof.
  intros Hf. apply NoDup_alt. intros i j y Hi Hj.
  rewrite list_lookup_imap in Hi, Hj.
  destruct (l !! i) as [a|]; [|done]. destruct (l !! j) as [b|]; [|done].
  cbn in Hi, Hj. apply (Hf i j a b). congruence.
Qed.

Lemma mounts_x310_all params base idx rs :
  omap as_node (x310_all params base idx rs) ≫= blockstores =
  if include_srslte_src params
  then imap (λ i _, {| bs_name := "bs-comp-" +:+ pretty (idx + i)%nat;
                       mount := "/opt/srslte";
                       dataset := Some GLOBALS.SRSLTE_SRC_DS |}) rs
  else [].
Proof.
  revert base idx; induction rs as [|r rs IH]; intros base idx.
  - by destruct (include_srslte_src params).
  - cbn [x310_all x310_resources app omap list_omap as_node].
    change ((x310_comp_node params idx r :: x310_radio_node r ::
               omap as_node (x310_all params (base + 3) (S idx) rs))
              ≫= blockstores)
      with (blockstores (x310_comp_node params idx r) ++
            (omap as_node (x310_all params (base + 3) (S idx) rs)
               ≫= blockstores)).
    rewrite IH. cbn [x310_comp_node blockstores].
    destruct (include_srslte_src params); [|done].
    rewrite imap_cons, Nat.add_0_r. cbn. f_equal.
    apply imap_ext; intros i x _; cbn. by rewrite Nat.add_succ_r.
Qed.

Lemma mounts_b210_all params idx ns :
  omap as_node (b210_all params idx ns) ≫= blockstores =
  if include_srslte_src params
  then imap (λ j _, {| bs_name := "bs-nuc-" +:+ pretty (idx + j)%nat;
                       mount := "/opt/srslte";
                       dataset := Some GLOBALS.SRSLTE_SRC_DS |}) ns
  else [].
Proof.
  revert idx; induction ns as [|n ns IH]; intros idx.
  - by destruct (include_srslte_src params).
  - cbn [b210_all b210_resources app omap list_omap as_node].
    change ((b210_nuc_node params idx n ::
               omap as_node (b210_all params (S idx) ns)) ≫= blockstores)
      with (blockstores (b210_nuc_node params idx n) ++
            (omap as_node (b210_all params (S idx) ns) ≫= blockstores)).
    rewrite IH. cbn [b210_nuc_node blockstores].
    destruct (include_srslte_src params); [|done].
    rewrite imap_cons, Nat.add_0_r. cbn. f_equal.
    apply imap_ext; intros i x _; cbn. by rewrite Nat.add_succ_r.
Qed.

(** X7: in the request of a run that passes the checks the links are named
    "radio-link-0", "radio-link-1", ... in the order of the selected rooftop
    radios, so the link names are pairwise distinct whatever is selected,
    also when the same radio is selected twice. *)
Theorem link_names_distinct (params : Params) :
  reported params = [] →
  ∃ g,
    profile params = Printed g ∧
    link_names g =
      imap (λ i _, "radio-link-" +:+ pretty i) (x310_radios params) ∧
    NoDup (link_names g).
Proof.
  intros Hok. rewrite (profile_passes _ Hok). eexists. split; [reflexivity|].
  assert (link_names (printed_request params) =
          imap (λ i _, "radio-link-" +:+ pretty i) (x310_radios params)) as E.
  { unfold link_names. rewrite links_printed_request, fmap_imap.
    by apply imap_ext. }
  split; [exact E|]. rewrite E. apply NoDup_imap_index.
  intros i j _ _ H. apply (inj (String.append "radio-link-")) in H.
  by apply (inj pretty) in H.
Qed.

Lemma link_names_distinct_witness :
  ∃ g,
    profile twice_browning_params = Printed g ∧
    link_names g = ["radio-link-0"; "radio-link-1"] ∧
    NoDup (link_names g).
Proof.
  apply (link_names_distinct twice_browning_params). reflexivity.
Defined.

(** X8: in the request of a run that passes the checks the storage mounts
    are named "bs-comp-0", "bs-comp-1", ... for the rooftop pairs followed by
    "bs-nuc-0", "bs-nuc-1", ... for the fixed endpoints when the flag is on
    (and there is none when it is off), so the mount names are pairwise
    distinct whatever is selected. *)
Theorem storage_mount_names_distinct (params : Params) :
  reported params = [] →
  ∃ g,
    profile params = Printed g ∧
    storage_mount_names g =
      (if include_srslte_src params
       then imap (λ i _, "bs-comp-" +:+ pretty i) (x310_radios params) ++
            imap (λ j _, "bs-nuc-" +:+ pretty j) (b210_nodes params)
       else []) ∧
    NoDup (storage_mount_names g).
Proof.
  intros Hok. rewrite (profile_passes _ Hok). eexists. split; [reflexivity|].
  assert (storage_mount_names (printed_request params) =
          if include_srslte_src params
          then imap (λ i _, "bs-comp-" +:+ pretty i) (x310_radios params) ++
               imap (λ j _, "bs-nuc-" +:+ pretty j) (b210_nodes params)
          else []) as E.
  { unfold storage_mount_names, storage_mounts, nodes, printed_request.
    cbn [resources].
    rewrite omap_app, bind_app, mounts_x310_all, mounts_b210_all.
    destruct (include_srslte_src params); [|done].
    rewrite fmap_app, !fmap_imap. f_equal; by apply imap_ext. }
  split; [exact E|]. rewrite E.
  destruct (include_srslte_src params); [|apply NoDup_nil_2].
  apply NoDup_app. repeat split.
  - apply NoDup_imap_index. intros i j _ _ H.
    apply (inj (String.append "bs-comp-")) in H. by apply (inj pretty) in H.
  - intros x Hx Hx'.
    apply elem_of_lookup_imap in Hx as (i & a & -> & _).
    apply elem_of_lookup_imap in Hx' as (j & b & H & _).
    cbn in H. discriminate H.
  - apply NoDup_imap_index. intros i j _ _ H.
    apply (inj (String.append "bs-nuc-")) in H. by apply (inj pretty) in H.
Qed.

Lemma storage_mount_names_distinct_witness :
  ∃ g,
    profile (with_include_srslte_src true two_pairs_params) = Printed g ∧
    storage_mount_names g = ["bs-comp-0"; "bs-comp-1"; "bs-nuc-0"; "bs-nuc-1"] ∧
    NoDup (storage_mount_names g).
Proof.
  apply (storage_mount_names_distinct
           (with_include_srslte_src true two_pairs_params)).
  reflexivity.
Defined.

(** ** What the builders leave alone *)

(** X9: on any request, each builder and the whole assembly only append:
    every resource the request already holds stays at its position,
    unchanged, although the builders update resources in place through their
    handles; the rooftop builder adds three resources, the fixed-endpoint
    builder one, and neither touches the spectrum ranges; the assembly keeps
    the ranges already there and adds two after them. *)
Theorem builders_only_append (params : Params) (idx : nat) (g : Request) :
  (∀ x310_radio,
     spectrum (exec (x310_node_pair params idx x310_radio) g) = spectrum g ∧
     length (resources (exec (x310_node_pair params idx x310_radio) g)) =
       (length (resources g) + 3)%nat ∧
     ∀ k x, resources g !! k = Some x →
            resources (exec (x310_node_pair params idx x310_radio) g) !! k = Some x) ∧
  (∀ b210_node,
     spectrum (exec (b210_nuc_pair params idx b210_node) g) = spectrum g ∧
     length (resources (exec (b210_nuc_pair params idx b210_node) g)) =
       (length (resources g) + 1)%nat ∧
     ∀ k x, resources g !! k = Some x →
            resources (exec (b210_nuc_pair params idx b210_node) g) !! k = Some x) ∧
  (length (spectrum (exec (request_resources params) g)) =
     (length (spectrum g) + 2)%nat ∧
   (∀ k x, spectrum g !! k = Some x →
           spectrum (exec (request_resources params) g) !! k = Some x) ∧
   (∀ k x, resources g !! k = Some x →
           resources (exec (request_resources params) g) !! k = Some x)).
Proof.
  split; [|split].
  - intros r. rewrite exec_x310_node_pair. cbn [resources spectrum].
    split; [done|]. split; [by rewrite length_app|].
    intros k x Hk. by apply lookup_app_l_Some.
  - intros n. rewrite exec_b210_nuc_pair. cbn [resources spectrum].
    split; [done|]. split; [by rewrite length_app|].
    intros k x Hk. by apply lookup_app_l_Some.
  - rewrite exec_request_resources. cbn [resources spectrum].
    split; [by rewrite length_app|].
    split; intros k x Hk; by apply lookup_app_l_Some.
Qed.

Lemma builders_only_append_witness :
  resources
    (exec (x310_node_pair default_params 7 {| radio_name := "cellsdr1-meb" |})
       (printed_request web_browning_params)) !! 1%nat =
  resources (printed_request web_browning_params) !! 1%nat.
Proof.
  destruct (builders_only_append default_params 7
              (printed_request web_browning_params)) as (X & _ & _).
  destruct (X {| radio_name := "cellsdr1-meb" |}) as (_ & _ & K).
  apply K. reflexivity.
Defined.

(** X10: in the request of a run that passes the checks the nodes are
    named, in order, "<radio>-comp" and "<radio>-x310" for each selected
    rooftop radio, followed by "b210-<site>-nuc2" for each selected
    fixed-endpoint site; the index takes no part in a node name. *)
Theorem node_names_in_order (params : Params) :
  reported params = [] →
  ∃ g,
    profile params = Printed g ∧
    node_names g =
      ((radio_name <$> x310_radios params) ≫= λ r, [r +:+ "-comp"; r +:+ "-x310"]) ++
      ((λ a, "b210-" +:+ a +:+ "-nuc2") <$> (aggregate_id <$> b210_nodes params)).
Proof.
  intros Hok. rewrite (profile_passes _ Hok). eexists. split; [reflexivity|].
  exact (node_names_printed_request params).
Qed.

Lemma node_names_in_order_witness :
  ∃ g,
    profile two_pairs_params = Printed g ∧
    node_names g =
      ["cellsdr1-browning-comp"; "cellsdr1-browning-x310";
       "cellsdr1-meb-comp"; "cellsdr1-meb-x310";
       "b210-web-nuc2"; "b210-bookstore-nuc2"].
Proof.
  apply (node_names_in_order two_pairs_params). reflexivity.
Defined.

(** * The separation checks on binary64 numbers *)

(** ** Binary64 subtraction inside one binade *)

Lemma digits2_pos_bounds (m : positive) :
  (2 ^ (Z.pos (digits2_pos m) - 1) <= Z.pos m < 2 ^ Z.pos (digits2_pos m))%Z.
Proof.
  induction m as [m IH|m IH|]; cbn [digits2_pos].
  - rewrite Pos2Z.inj_succ, Z.pow_succ_r by lia.
    replace (Z.succ (Z.pos (digits2_pos m)) - 1)%Z
      with (Z.succ (Z.pos (digits2_pos m) - 1)) by lia.
    rewrite Z.pow_succ_r by lia. lia.
  - rewrite Pos2Z.inj_succ, Z.pow_succ_r by lia.
    replace (Z.succ (Z.pos (digits2_pos m)) - 1)%Z
      with (Z.succ (Z.pos (digits2_pos m) - 1)) by lia.
    rewrite Z.pow_succ_r by lia. lia.
  - cbn. lia.
Qed.

Lemma digits2_pos_le (m : positive) (n : Z) :
  (0 <= n)%Z → (Z.pos (digits2_pos m) <= n ↔ Z.pos m < 2 ^ n)%Z.
Proof.
  intros Hn. pose proof (digits2_pos_bounds m) as [L U]. split; intros H.
  - eapply Z.lt_le_trans; [exact U|]. apply Z.pow_le_mono_r; lia.
  - destruct (Z.le_gt_cases (Z.pos (digits2_pos m)) n) as [|G]; [done|].
    exfalso. assert (2 ^ n <= 2 ^ (Z.pos (digits2_pos m) - 1))%Z
      by (apply Z.pow_le_mono_r; lia). lia.
Qed.

Lemma digits2_pos_iter_xO (m k : positive) :
  digits2_pos (Pos.iter xO m k) = (digits2_pos m + k)%positive.
Proof.
  induction k as [|k IH] using Pos.peano_ind.
  - cbn. lia.
  - rewrite Pos.iter_succ. cbn [digits2_pos]. rewrite IH. lia.
Qed.

Lemma binary_round_aux_exact (s : bool) (m : positive) (e : Z) :
  digits2_pos m = 53%positive → (-1074 <= e <= 971)%Z →
  binary_round_aux prec emax s (Z.pos m) e loc_Exact = S754_finite s m e.
Proof.
  intros Hd He. unfold binary_round_aux, shr_fexp, shr_record_of_loc.
  cbn [Zdigits2]. rewrite Hd.
  assert (fexp prec emax (53 + e) - e = 0)%Z as ->.
  { unfold fexp, SpecFloat.emin, prec, emax. lia. }
  cbn [shr shr_m loc_of_shr_record round_nearest_even Zdigits2].
  rewrite Hd.
  assert (fexp prec emax (53 + e) - e = 0)%Z as ->.
  { unfold fexp, SpecFloat.emin, prec, emax. lia. }
  cbn [shr shr_m]. 
  destruct (Z.leb_spec e (emax - prec)) as [|G]; [done|].
  unfold emax, prec in G. lia.
Qed.

Lemma binary_round_small (s : bool) (d : positive) :
  (Z.pos d < 2 ^ 53)%Z →
  ∃ m, binary_round prec emax s d (-41) =
         S754_finite s m (Z.pos (digits2_pos d) - 94) ∧
       digits2_pos m = 53%positive.
Proof.
  intros Hd. apply digits2_pos_le in Hd; [|lia].
  unfold binary_round, shl_align.
  assert (fexp prec emax (Z.pos (digits2_pos d) + -41) =
          Z.pos (digits2_pos d) - 94)%Z as ->.
  { unfold fexp, SpecFloat.emin, prec, emax. lia. }
  destruct (Z.pos (digits2_pos d) - 94 - -41)%Z as [|k|k] eqn:E.
  - exists d. split; [|lia].
    rewrite binary_round_aux_exact by lia. f_equal. lia.
  - lia.
  - exists (Pos.iter xO d k).
    assert (digits2_pos (Pos.iter xO d k) = 53%positive) as Hm
      by (rewrite digits2_pos_iter_xO; lia).
    split; [|done]. apply binary_round_aux_exact; [done|lia].
Qed.

Lemma SFltb_one64 (s : bool) (m : positive) (e : Z) :
  digits2_pos m = 53%positive →
  SFltb (S754_finite s m e) one64 = (s || (e <? -52)%Z).
Proof.
  intros Hd. unfold SFltb, SFcompare, one64. destruct s; [done|]. cbn [orb].
  destruct (Z.compare_spec e (-52)) as [->|L|G].
  - pose proof (digits2_pos_bounds m) as [L _]. rewrite Hd in L.
    rewrite Pos.compare_cont_spec. cbn [Pos.switch_Eq].
    destruct (Pos.compare_spec m 4503599627370496) as [?|H|?]; try done.
    exfalso. change (2 ^ (53 - 1))%Z with 4503599627370496%Z in L.
    apply Pos2Z.pos_lt_pos in H. lia.
  - symmetry. apply Z.ltb_lt. done.
  - symmetry. apply Z.ltb_ge. lia.
Qed.

Lemma SFltb_sub_binade (mhi mlo : positive) :
  digits2_pos mhi = 53%positive → digits2_pos mlo = 53%positive →
  SFltb (SF64sub (S754_finite false mhi (-41)) (S754_finite false mlo (-41)))
    one64 =
  (Z.pos mhi - Z.pos mlo <? 2 ^ 41)%Z.
Proof.
  intros Hhi Hlo.
  pose proof (digits2_pos_bounds mhi) as [_ Uhi]. rewrite Hhi in Uhi.
  pose proof (digits2_pos_bounds mlo) as [_ Ulo]. rewrite Hlo in Ulo.
  change (SF64sub (S754_finite false mhi (-41)) (S754_finite false mlo (-41)))
    with (binary_normalize prec emax (Z.pos mhi - Z.pos mlo) (-41) false).
  destruct (Z.pos mhi - Z.pos mlo)%Z as [|d|d] eqn:E; cbn [binary_normalize].
  - done.
  - destruct (binary_round_small false d) as (m & -> & Hm); [lia|].
    rewrite SFltb_one64 by done. cbn [orb].
    destruct (Z.ltb_spec (Z.pos d) (2 ^ 41)) as [H|H].
    + apply Z.ltb_lt. apply digits2_pos_le in H; lia.
    + apply Z.ltb_ge.
      destruct (Z.le_gt_cases (Z.pos (digits2_pos d)) 41) as [H'|H']; [|lia].
      apply digits2_pos_le in H'; lia.
  - destruct (binary_round_small true d) as (m & -> & Hm); [lia|].
    rewrite SFltb_one64 by done. done.
Qed.


Lemma binade_form (x : spec_float) :
  valid_binary x = true → SFleb c2048 x = true → SFltb x c4096 = true →
  ∃ m, x = S754_finite false m (-41) ∧ digits2_pos m = 53%positive.
Proof.
  destruct x as [s|s| |s m e]; try discriminate.
  { destruct s; discriminate. }
  destruct s; [discriminate|]. intros Hv Hle Hlt.
  assert (Z.max (Z.pos (digits2_pos m) + e - 53) (-1074) = e)%Z as Hc.
  { apply andb_prop in Hv as [Hv _]. apply Z.eqb_eq in Hv. exact Hv. }
  unfold SFleb, SFltb, SFcompare, c2048, c4096 in Hle, Hlt.
  destruct (Z.compare_spec (-41) e) as [E|L|G]; try discriminate.
  - subst e. exists m. split; [done|].
    assert (Z.pos (digits2_pos m) = 53)%Z as H by lia. by injection H.
  - destruct (Z.compare_spec e (-40)) as [E'|L'|G']; try discriminate; [|lia].
    subst e. exfalso.
    assert (Z.pos (digits2_pos m) = 53)%Z as H by lia.
    pose proof (digits2_pos_bounds m) as [Lo _]. rewrite H in Lo.
    change (2 ^ (53 - 1))%Z with 4503599627370496%Z in Lo.
    rewrite Pos.compare_cont_spec in Hlt. cbn [Pos.switch_Eq] in Hlt.
    destruct (Pos.compare_spec m 4503599627370496) as [?|Hm|?]; try discriminate.
    apply Pos2Z.pos_lt_pos in Hm. lia.
Qed.

Lemma Prim2SF_in_binade (x : float) :
  in_binade x = true →
  ∃ m, Prim2SF x = S754_finite false m (-41) ∧ digits2_pos m = 53%positive.
Proof.
  unfold in_binade. intros H. apply andb_prop in H as [Hle Hlt].
  rewrite leb_spec in Hle. rewrite ltb_spec in Hlt.
  apply binade_form; [apply Prim2SF_valid|exact Hle|exact Hlt].
Qed.

Lemma ltb_sub_in_binade (lo hi : float) :
  in_binade lo = true → in_binade hi = true →
  ∃ mlo mhi,
    exact lo = (Z.pos mlo # 2199023255552)%Q ∧
    exact hi = (Z.pos mhi # 2199023255552)%Q ∧
    (hi - lo <? 1)%float = (Z.pos mhi - Z.pos mlo <? 2199023255552)%Z.
Proof.
  intros Hlo Hhi.
  destruct (Prim2SF_in_binade lo Hlo) as (mlo & Elo & Dlo).
  destruct (Prim2SF_in_binade hi Hhi) as (mhi & Ehi & Dhi).
  exists mlo, mhi. unfold exact. rewrite Elo, Ehi.
  split; [reflexivity|]. split; [reflexivity|].
  rewrite ltb_spec, sub_spec, Elo, Ehi.
  exact (SFltb_sub_binade mhi mlo Dhi Dlo).
Qed.

Lemma Qlt_binade (mlo mhi : positive) :
  ((Z.pos mhi # 2199023255552) - (Z.pos mlo # 2199023255552) < 1)%Q ↔
  (Z.pos mhi - Z.pos mlo < 2199023255552)%Z.
Proof.
  unfold Qlt, Qminus, Qplus, Qopp. cbn [Qnum Qden]. 
  change (Z.pos (2199023255552 * 2199023255552))
    with (2199023255552 * 2199023255552)%Z.
  set (c := 2199023255552%Z). nia.
Qed.

(** In the binade the rounded difference is below 1 exactly when the real
    difference is. *)
Lemma ltb_sub_exact (lo hi : float) :
  in_binade lo = true → in_binade hi = true →
  (hi - lo <? 1)%float = true ↔ (exact hi - exact lo < 1)%Q.
Proof.
  intros Hlo Hhi.
  destruct (ltb_sub_in_binade lo hi Hlo Hhi) as (mlo & mhi & -> & -> & ->).
  rewrite Qlt_binade. apply Z.ltb_lt.
Qed.

Lemma b64_reported_closed_form (params : B64.Frequencies) :
  B64.reported params =
  (if B64.ul_band_violated params then [err_ul_band] else []) ++
  (if B64.ul_separation_violated params then [err_ul_separation] else []) ++
  (if B64.dl_band_violated params then [err_dl_band] else []) ++
  (if B64.dl_separation_violated params then [err_dl_separation] else []).
Proof.
  unfold B64.reported, B64.check_frequency_parameters.
  destruct (B64.ul_band_violated params), (B64.ul_separation_violated params),
    (B64.dl_band_violated params), (B64.dl_separation_violated params);
    reflexivity.
Qed.


(** ** C2 *)




(** * The assembly, call by call *)

Lemma x310_all_imap params base idx rs :
  x310_all params base idx rs =
  mjoin (imap (λ i r, x310_resources params (base + 3 * i) (idx + i) r) rs).
Proof.
  revert base idx; induction rs as [|r rs IH]; intros base idx; [done|].
  cbn [x310_all]. rewrite IH, imap_cons. cbn [mjoin list_join].
  f_equal.
  - f_equal; lia.
  - f_equal. apply imap_ext; intros i x _; cbn. f_equal; lia.
Qed.

Lemma b210_all_imap params idx ns :
  b210_all params idx ns =
  imap (λ j n, RNode (b210_nuc_node params (idx + j) n)) ns.
Proof.
  revert idx; induction ns as [|n ns IH]; intros idx; [done|].
  cbn [b210_all b210_resources app]. rewrite IH, imap_cons, Nat.add_0_r.
  f_equal. apply imap_ext; intros j x _; cbn. do 2 f_equal. lia.
Qed.

Lemma link_names_printed_request params :
  link_names (printed_request params) =
  imap (λ i _, "radio-link-" +:+ pretty i) (x310_radios params).
Proof.
  unfold link_names. rewrite links_printed_request, fmap_imap.
  by apply imap_ext.
Qed.

Lemma storage_mount_names_printed_request params :
  storage_mount_names (printed_request params) =
  if include_srslte_src params
  then imap (λ i _, "bs-comp-" +:+ pretty i) (x310_radios params) ++
       imap (λ j _, "bs-nuc-" +:+ pretty j) (b210_nodes params)
  else [].
Proof.
  unfold storage_mount_names, storage_mounts, nodes, printed_request.
  cbn [resources].
  rewrite omap_app, bind_app, mounts_x310_all, mounts_b210_all.
  destruct (include_srslte_src params); [|done].
  rewrite fmap_app, !fmap_imap. f_equal; by apply imap_ext.
Qed.

(** ** C8 *)

(** C8: a run that passes the checks prints the request obtained from the
    empty request by calling the rooftop builder once per selected radio, in
    input order, with indices 0, 1, 2, ...; then the fixed-endpoint builder
    once per selected site, in input order, with indices starting again at
    0; then [requestSpectrum] for the uplink bounds and for the downlink
    bounds.  The calls show in the request: its resources are, radio after
    radio, the link "radio-link-i", the compute node and the radio node of
    the i-th radio, followed by the node of each site; with the flag on the
    mounts are "bs-comp-0", "bs-comp-1", ... and then "bs-nuc-0",
    "bs-nuc-1", ...; and its spectrum ranges are exactly two, the uplink
    range and then the downlink range. *)
Theorem C8_assembly_order (params : Params) :
  reported params = [] →
  ∃ g,
    profile params = Printed g ∧
    g = foldl (λ g' c, exec (perform params c) g') makeRequestRSpec
          (imap call_x310_node_pair (x310_radios params) ++
           imap call_b210_nuc_pair (b210_nodes params) ++
           [call_requestSpectrum (ul_freq_min params) (ul_freq_max params) 0;
            call_requestSpectrum (dl_freq_min params) (dl_freq_max params) 0]) ∧
    resources g =
      mjoin (imap (λ i x310_radio,
                     [RLink (x310_radio_link i (3 * i + 1) (3 * i + 2));
                      RNode (x310_comp_node params i x310_radio);
                      RNode (x310_radio_node x310_radio)])
               (x310_radios params)) ++
      imap (λ j b210_node, RNode (b210_nuc_node params j b210_node))
        (b210_nodes params) ∧
    link_names g =
      imap (λ i _, "radio-link-" +:+ pretty i) (x310_radios params) ∧
    storage_mount_names g =
      (if include_srslte_src params
       then imap (λ i _, "bs-comp-" +:+ pretty i) (x310_radios params) ++
            imap (λ j _, "bs-nuc-" +:+ pretty j) (b210_nodes params)
       else []) ∧
    node_names g =
      ((radio_name <$> x310_radios params) ≫= λ r, [r +:+ "-comp"; r +:+ "-x310"]) ++
      ((λ a, "b210-" +:+ a +:+ "-nuc2") <$> (aggregate_id <$> b210_nodes params)) ∧
    spectrum g =
      [{| frequency_low := ul_freq_min params;
          frequency_high := ul_freq_max params; priority := 0 |};
       {| frequency_low := dl_freq_min params;
          frequency_high := dl_freq_max params; priority := 0 |}].
Proof.
  intros Hok. exists (printed_request params).
  split; [by apply profile_passes|]. split; [|split; [|split; [|split; [|split]]]].
  - pose proof (request_resources_calls params makeRequestRSpec) as H.
    rewrite exec_request_resources in H. exact H.
  - unfold printed_request; cbn [resources].
    rewrite x310_all_imap, b210_all_imap. reflexivity.
  - apply link_names_printed_request.
  - apply storage_mount_names_printed_request.
  - exact (node_names_printed_request params).
  - reflexivity.
Qed.

Lemma C8_assembly_order_witness :
  ∃ g,
    profile (with_include_srslte_src true two_pairs_params) = Printed g ∧
    g = foldl (λ g' c,
                 exec (perform (with_include_srslte_src true two_pairs_params) c) g')
          makeRequestRSpec
          [call_x310_node_pair 0 {| radio_name := "cellsdr1-browning" |};
           call_x310_node_pair 1 {| radio_name := "cellsdr1-meb" |};
           call_b210_nuc_pair 0 {| aggregate_id := "web" |};
           call_b210_nuc_pair 1 {| aggregate_id := "bookstore" |};
           call_requestSpectrum 2500%Q 2510%Q 0;
           call_requestSpectrum 2620%Q 2630%Q 0] ∧
    link_names g = ["radio-link-0"; "radio-link-1"] ∧
    storage_mount_names g = ["bs-comp-0"; "bs-comp-1"; "bs-nuc-0"; "bs-nuc-1"] ∧
    node_names g =
      ["cellsdr1-browning-comp"; "cellsdr1-browning-x310";
       "cellsdr1-meb-comp"; "cellsdr1-meb-x310";
       "b210-web-nuc2"; "b210-bookstore-nuc2"] ∧
    spectrum g =
      [{| frequency_low := 2500%Q; frequency_high := 2510%Q; priority := 0 |};
       {| frequency_low := 2620%Q; frequency_high := 2630%Q; priority := 0 |}].
Proof.
  destruct (C8_assembly_order (with_include_srslte_src true two_pairs_params)
              eq_refl) as (g & Hp & Hf & _ & Hl & Hm & Hn & Hs).
  exists g. repeat split; assumption.
Defined.

(** * The two models of the checks *)

Lemma ltb_binade (x c : float) (m mc : positive) :
  Prim2SF x = S754_finite false m (-41) →
  Prim2SF c = S754_finite false mc (-41) →
  (x <? c)%float = (Z.pos m <? Z.pos mc)%Z.
Proof.
  intros Hx Hc. rewrite ltb_spec, Hx, Hc.
  unfold SFltb, SFcompare, Z.ltb. cbn [Z.compare].
  rewrite Pos.compare_cont_spec. cbn [Pos.switch_Eq].
  by destruct (m ?= mc)%positive.
Qed.

Lemma Qlt_bool_binade_l (m : positive) (k : Z) :
  Qlt_bool (Z.pos m # 2199023255552) (k # 1) =
  (Z.pos m <? k * 2199023255552)%Z.
Proof.
  unfold Qlt_bool, Qle_bool. cbn [Qnum Qden].
  destruct (Z.leb_spec (k * 2199023255552) (Z.pos m * 1)),
    (Z.ltb_spec (Z.pos m) (k * 2199023255552)); cbn; lia.
Qed.

Lemma Qlt_bool_binade_r (m : positive) (k : Z) :
  Qlt_bool (k # 1) (Z.pos m # 2199023255552) =
  (k * 2199023255552 <? Z.pos m)%Z.
Proof.
  unfold Qlt_bool, Qle_bool. cbn [Qnum Qden].
  destruct (Z.leb_spec (Z.pos m * 1) (k * 2199023255552)),
    (Z.ltb_spec (k * 2199023255552) (Z.pos m)); cbn; lia.
Qed.

Lemma band_check_agrees (x c : float) (k : Z) (mc : positive) :
  in_binade x = true →
  Prim2SF c = S754_finite false mc (-41) →
  (k * 2199023255552 = Z.pos mc)%Z →
  (x <? c)%float = Qlt_bool (exact x) (k # 1) ∧
  (c <? x)%float = Qlt_bool (k # 1) (exact x).
Proof.
  intros Hx Hc Hk. destruct (Prim2SF_in_binade x Hx) as (m & Em & _).
  unfold exact. rewrite Em. cbn [SF2Q].
  change (2 ^ 41)%positive with 2199023255552%positive.
  rewrite Qlt_bool_binade_l, Qlt_bool_binade_r, Hk.
  split; [apply (ltb_binade x c m mc Em Hc)|apply (ltb_binade c x mc m Hc Em)].
Qed.

Lemma separation_check_agrees (lo hi : float) :
  in_binade lo = true → in_binade hi = true →
  (hi - lo <? 1)%float = Qlt_bool (exact hi - exact lo) 1.
Proof.
  intros Hlo Hhi. pose proof (ltb_sub_exact lo hi Hlo Hhi) as H.
  rewrite <- Qlt_bool_iff in H.
  destruct (hi - lo <? 1)%float, (Qlt_bool (exact hi - exact lo) 1);
    try done.
  - symmetry. by apply H.
  - by apply H.
Qed.

(** X11: when the four bounds are binary64 numbers from 2048 up to 4096, as
    all bounds in band are, the checks on binary64 numbers report exactly
    what the checks on the rationals the bounds stand for report. *)
Theorem b64_checks_agree (f : B64.Frequencies) (params : Params) :
  in_binade (B64.ul_freq_min f) = true →
  in_binade (B64.ul_freq_max f) = true →
  in_binade (B64.dl_freq_min f) = true →
  in_binade (B64.dl_freq_max f) = true →
  B64.reported f = reported (exact_frequencies f params).
Proof.
  intros H1 H2 H3 H4.
  rewrite b64_reported_closed_form, reported_closed_form.
  unfold B64.ul_band_violated, B64.dl_band_violated,
    B64.ul_separation_violated, B64.dl_separation_violated,
    ul_band_violated, dl_band_violated, ul_separation_violated,
    dl_separation_violated.
  cbn [exact_frequencies with_frequencies ul_freq_min ul_freq_max
         dl_freq_min dl_freq_max].
  destruct (band_check_agrees (B64.ul_freq_min f) 2500 2500 5497558138880000 H1
              eq_refl eq_refl) as [-> _].
  destruct (band_check_agrees (B64.ul_freq_min f) 2570 2570 5651489766768640 H1
              eq_refl eq_refl) as [_ ->].
  destruct (band_check_agrees (B64.ul_freq_max f) 2500 2500 5497558138880000 H2
              eq_refl eq_refl) as [-> _].
  destruct (band_check_agrees (B64.ul_freq_max f) 2570 2570 5651489766768640 H2
              eq_refl eq_refl) as [_ ->].
  destruct (band_check_agrees (B64.dl_freq_min f) 2620 2620 5761440929546240 H3
              eq_refl eq_refl) as [-> _].
  destruct (band_check_agrees (B64.dl_freq_min f) 2690 2690 5915372557434880 H3
              eq_refl eq_refl) as [_ ->].
  destruct (band_check_agrees (B64.dl_freq_max f) 2620 2620 5761440929546240 H4
              eq_refl eq_refl) as [-> _].
  destruct (band_check_agrees (B64.dl_freq_max f) 2690 2690 5915372557434880 H4
              eq_refl eq_refl) as [_ ->].
  rewrite (separation_check_agrees _ _ H1 H2), (separation_check_agrees _ _ H3 H4).
  reflexivity.
Qed.

Lemma b64_checks_agree_witness :
  B64.reported band_edge_frequencies =
  reported (exact_frequencies band_edge_frequencies default_params).
Proof.
  apply (b64_checks_agree band_edge_frequencies default_params); reflexivity.
Defined.
